(** * Icelandic SSN Usage API: the kennitala validator and the orchestrator

    A shallow embedding of [main.py].

    - A Python [str] is a Rocq [string]; a character is a code point below
      256.  On these code points the class [\d] of [re] is exactly
      ['0'..'9'] and [int] reads the ASCII digits.
    - Python integers are [Z].
    - A raised exception is the [Raise] case of [outcome]; [try]/[except]
      is [try_except].
    - The collaborators of the endpoint (the directory lookup, the clock,
      the host's time zone, the metrics backend) are the fields of a
      [world]; the state of a request is the number of clock readings so
      far and the list of metrics queries issued so far. *)

From Stdlib Require Import ZArith Lia Bool List String Ascii.
From Stdlib Require Import DecimalString.
Import ListNotations.

Local Open Scope string_scope.
Local Open Scope Z_scope.

(** ** Exceptions *)

Inductive exn : Type :=
| ValueError (msg : string)
| HTTPException (status_code : Z) (detail : string)
| OtherException (msg : string).

Inductive outcome (A : Type) : Type :=
| Return (a : A)
| Raise (e : exn).

Arguments Return {A} a.
Arguments Raise {A} e.

Definition obind {A B : Type} (o : outcome A) (k : A -> outcome B) : outcome B :=
  match o with
  | Return a => k a
  | Raise e => Raise e
  end.

(** ** Strings *)

Module Str.

(** Line feed, written ['\n'] in Python. *)
Definition LF : ascii := "010"%char.

Definition DASH : ascii := "-"%char.

(** The double quote. *)
Definition QUOTE : ascii := "034"%char.

(** [s] between double quotes. *)
Definition quoted (s : string) : string :=
  String QUOTE (s ++ String QUOTE EmptyString).

(** [len(s)] *)
Definition len (s : string) : Z := Z.of_nat (String.length s).

(** [s[a:b]] for indices [0 <= a <= b]: the slice is cut at the end of
    the string, it never raises. *)
Definition slice (a b : nat) (s : string) : string :=
  String.substring a (b - a) s.

(** [s.replace(old, new)] for a one-character [old]. *)
Fixpoint replace (old : ascii) (new : string) (s : string) : string :=
  match s with
  | EmptyString => EmptyString
  | String c s' =>
      if Ascii.eqb c old then new ++ replace old new s'
      else String c (replace old new s')
  end.

(** A decimal digit: what [\d] matches. *)
Definition is_digit (c : ascii) : bool :=
  let n := nat_of_ascii c in
  (Nat.leb 48 n && Nat.leb n 57)%bool.

Definition digit_value (c : ascii) : Z := Z.of_nat (nat_of_ascii c) - 48.

Fixpoint all_digits (s : string) : bool :=
  match s with
  | EmptyString => true
  | String c s' => is_digit c && all_digits s'
  end.

Fixpoint int_acc (acc : Z) (s : string) : Z :=
  match s with
  | EmptyString => acc
  | String c s' => int_acc (10 * acc + digit_value c) s'
  end.

(** [int(s)] on the strings the validator gives it: a non-empty run of
    digits is read in base 10, anything else raises [ValueError]. *)
Definition int (s : string) : outcome Z :=
  match s with
  | EmptyString => Raise (ValueError ("invalid literal for int() with base 10: ''"))
  | _ =>
      if all_digits s then Return (int_acc 0 s)
      else Raise (ValueError ("invalid literal for int() with base 10: '" ++ s ++ "'"))
  end.

(** [str(n)] for an integer. *)
Definition of_Z (n : Z) : string := NilZero.string_of_int (Z.to_int n).

End Str.

(** ** The fragment of [re] the pattern uses *)

Module Re.

Inductive regex : Type :=
| Bol                          (* ^ *)
| Eol                          (* $ *)
| Digit                        (* \d *)
| Lit (c : ascii)              (* a literal character *)
| Opt (r : regex)              (* r? *)
| Rep (n : nat) (r : regex)    (* r{n} *)
| Seq (r1 r2 : regex).         (* r1 r2 *)

(** Backtracking matcher in continuation style: [run r pos s k] tries
    [r] at offset [pos], where [s] is what is left of the subject, and
    hands each way of matching to [k].  Without the MULTILINE flag [^]
    holds at offset 0 only and [$] holds at the end of the subject and
    just before a line feed that ends it. *)
Fixpoint run (r : regex) (pos : nat) (s : string)
         (k : nat -> string -> bool) : bool :=
  match r with
  | Bol => Nat.eqb pos 0 && k pos s
  | Eol =>
      match s with
      | EmptyString => k pos s
      | String c EmptyString => Ascii.eqb c Str.LF && k pos s
      | _ => false
      end
  | Digit =>
      match s with
      | String c s' => Str.is_digit c && k (S pos) s'
      | EmptyString => false
      end
  | Lit a =>
      match s with
      | String c s' => Ascii.eqb c a && k (S pos) s'
      | EmptyString => false
      end
  | Opt r1 => run r1 pos s k || k pos s
  | Rep n r1 =>
      (fix rep (n : nat) (pos : nat) (s : string) : bool :=
         match n with
         | O => k pos s
         | S n' => run r1 pos s (rep n')
         end) n pos s
  | Seq r1 r2 => run r1 pos s (fun pos' s' => run r2 pos' s' k)
  end.

(** [re.match(r, s)] as a truth value: a match anchored at offset 0,
    free to stop anywhere. *)
Definition matches (r : regex) (s : string) : bool :=
  run r 0 s (fun _ _ => true).

End Re.

(** ** Calendar dates: the checks of [datetime(year, month, day)] *)

Module Datetime.

Definition MINYEAR : Z := 1.
Definition MAXYEAR : Z := 9999.

Definition DAYS_IN_MONTH : list Z :=
  [-1; 31; 28; 31; 30; 31; 30; 31; 31; 30; 31; 30; 31].

Definition is_leap (year : Z) : bool :=
  (year mod 4 =? 0) && (negb (year mod 100 =? 0) || (year mod 400 =? 0)).

Definition days_in_month (year month : Z) : Z :=
  if (month =? 2) && is_leap year then 29
  else nth (Z.to_nat month) DAYS_IN_MONTH 0.

(** The constructor checks the year, then the month, then the day, and
    raises [ValueError] at the first field out of range. *)
Definition check_date_fields (year month day : Z) : outcome unit :=
  if negb ((MINYEAR <=? year) && (year <=? MAXYEAR))
  then Raise (ValueError "year must be in 1..9999")
  else if negb ((1 <=? month) && (month <=? 12))
  then Raise (ValueError "month must be in 1..12")
  else
    let dim := days_in_month year month in
    if negb ((1 <=? day) && (day <=? dim))
    then Raise (ValueError ("day must be in 1.." ++ Str.of_Z dim))
    else Return tt.

End Datetime.

(** ** [SSNRequest.validate_kennitala] *)

(** [r'^\d{6}-?\d{4}$'] *)
Definition pattern : Re.regex :=
  Re.Seq Re.Bol
    (Re.Seq (Re.Rep 6 Re.Digit)
       (Re.Seq (Re.Opt (Re.Lit Str.DASH))
          (Re.Seq (Re.Rep 4 Re.Digit) Re.Eol))).

Definition MSG_FORMAT : string :=
  "Invalid kennitala format. Expected format: DDMMYY-XXXX or DDMMYYXXXX".
Definition MSG_LENGTH : string := "Kennitala must be exactly 10 digits".
Definition MSG_DATE : string := "Invalid date in kennitala".

(** The century rule of lines 34-37. *)
Definition full_year_of (year : Z) : Z :=
  if year >? 50 then 1900 + year else 2000 + year.

Definition validate_kennitala (v : string) : outcome string :=
  if negb (Re.matches pattern v) then Raise (ValueError MSG_FORMAT)
  else
    let clean_ssn := Str.replace Str.DASH "" v in
    if negb (Str.len clean_ssn =? 10) then Raise (ValueError MSG_LENGTH)
    else
      obind (Str.int (Str.slice 0 2 clean_ssn)) (fun day =>
      obind (Str.int (Str.slice 2 4 clean_ssn)) (fun month =>
      obind (Str.int (Str.slice 4 6 clean_ssn)) (fun year =>
      let full_year := full_year_of year in
      match Datetime.check_date_fields full_year month day with
      | Raise (ValueError _) => Raise (ValueError MSG_DATE)
      | Raise e => Raise e
      | Return _ => Return clean_ssn
      end))).

(** Pydantic runs the validator when the request body is parsed: the
    value it returns becomes the [kennitala] field, a [ValueError] becomes
    a validation error of the request. *)
Record SSNRequest : Type := { kennitala : string }.

Inductive parsed (A : Type) : Type :=
| Parsed (a : A)
| ValidationError (msg : string)
| Crashed (e : exn).

Arguments Parsed {A} a.
Arguments ValidationError {A} msg.
Arguments Crashed {A} e.

Definition parse_SSNRequest (v : string) : parsed SSNRequest :=
  match validate_kennitala v with
  | Return clean => Parsed {| kennitala := clean |}
  | Raise (ValueError msg) => ValidationError msg
  | Raise e => Crashed e
  end.

(** ** JSON values and dictionaries *)

#[warnings="-register-all"]
Inductive json : Type :=
| JNull
| JBool (b : bool)
| JInt (n : Z)
| JStr (s : string)
| JList (l : list json)
| JDict (d : list (string * json)).

Definition dict : Type := list (string * json).

Fixpoint dict_get (d : dict) (key : string) : option json :=
  match d with
  | [] => None
  | (k, v) :: d' => if String.eqb k key then Some v else dict_get d' key
  end.

(** ** Naive datetimes

    A naive [datetime] is a point of the host's wall clock; it is counted
    here in microseconds from the wall-clock reading 1970-01-01T00:00:00. *)

Definition datetime : Type := Z.

(** [timedelta(hours=h)] in microseconds. *)
Definition timedelta_hours (h : Z) : Z := h * 3600 * 1000000.

(** ** The collaborators *)

Module Lookup.
(** The dictionary [get_switch_port_data] returns (the fields of
    [SwitchPortResponse]). *)
Record t : Type := {
  switch_number : string;
  port_number : string;
  success : bool;
  message : string
}.
End Lookup.

Module Response.
(** What [client.get] returns. *)
Record t : Type := {
  status_code : Z;
  text : string;
  json : outcome json      (* [response.json()] raises on a body that is not JSON *)
}.
End Response.

Module Usage.
(** [UsageDataResponse] *)
Record t : Type := {
  kennitala : string;
  switch_number : string;
  port_number : string;
  usage_data : dict;
  timestamp : datetime
}.
End Usage.

Record world : Type := {
  (** what the directory behind [get_switch_port_data] answers *)
  directory : string -> outcome Lookup.t;
  (** the n-th reading of [datetime.now()] *)
  clock : nat -> datetime;
  (** the host's offset from UTC, in seconds, at a wall-clock reading *)
  utcoffset : datetime -> Z;
  (** [d.isoformat()] *)
  isoformat : datetime -> string;
  (** what the metrics backend answers to a GET with these parameters *)
  backend : string -> dict -> outcome Response.t;
  (** [str(e)] for an [HTTPException] *)
  str_HTTPException : Z -> string -> string
}.

(** [str(e)] *)
Definition str_exn (w : world) (e : exn) : string :=
  match e with
  | ValueError msg => msg
  | HTTPException c d => str_HTTPException w c d
  | OtherException msg => msg
  end.

(** ** The state a request runs in, and its monad *)

Record state : Type := {
  ticks : nat;                         (* readings of the clock so far *)
  sent : list (string * dict)          (* metrics queries issued so far, oldest first *)
}.

Definition M (A : Type) : Type := state -> outcome A * state.

Definition ret {A : Type} (a : A) : M A := fun s => (Return a, s).

Definition raise {A : Type} (e : exn) : M A := fun s => (Raise e, s).

Definition bind {A B : Type} (m : M A) (k : A -> M B) : M B :=
  fun s =>
    match m s with
    | (Return a, s') => k a s'
    | (Raise e, s') => (Raise e, s')
    end.

(** [try: m  except Exception as e: h e] *)
Definition try_except {A : Type} (m : M A) (h : exn -> M A) : M A :=
  fun s =>
    match m s with
    | (Return a, s') => (Return a, s')
    | (Raise e, s') => h e s'
    end.

Definition lift {A : Type} (o : outcome A) : M A := fun s => (o, s).

Declare Scope monad_scope.
Delimit Scope monad_scope with monad.
Notation "x <- m ;; k" := (bind m (fun x => k))
  (at level 61, m at next level, right associativity) : monad_scope.
Local Open Scope monad_scope.

(** [datetime.now()] *)
Definition datetime_now (w : world) : M datetime :=
  fun s => (Return (clock w (ticks s)),
            {| ticks := S (ticks s); sent := sent s |}).

(** [d.timestamp()] of a naive datetime, in microseconds: the wall-clock
    reading is taken as local time and moved to UTC. *)
Definition timestamp_us (w : world) (d : datetime) : Z :=
  d - 1000000 * utcoffset w d.

(** [int(d.timestamp())]: the float, taken to hold the count of
    microseconds exactly, is cut towards zero. *)
Definition int_timestamp (w : world) (d : datetime) : Z :=
  Z.quot (timestamp_us w d) 1000000.

(** [await client.get(url, params=params)] *)
Definition client_get (w : world) (url : string) (params : dict) : M Response.t :=
  fun s => (backend w url params,
            {| ticks := ticks s; sent := sent s ++ [(url, params)] |}).

(** ** [get_switch_port_data] as the repository has it: a placeholder *)

Definition get_switch_port_data_placeholder (kennitala : string) : outcome Lookup.t :=
  Return {| Lookup.switch_number := "SW001";
            Lookup.port_number := "P001";
            Lookup.success := true;
            Lookup.message := "Success" |}.

(** [await get_switch_port_data(kennitala)].  The body the repository has
    is the placeholder above; the lookup it stands for is the [directory]
    of the world, which may answer [success = false] or raise. *)
Definition get_switch_port_data (w : world) (kennitala : string) : M Lookup.t :=
  lift (directory w kennitala).

(** ** [get_monitoring_data] *)

Definition MONITOR_URL : string :=
  "http://monitor01.gagnaveita.is:9090/api/v1/query_range".

(** The selector of line 140. *)
Definition selector (switch_number port_number : string) : string :=
  "switch_number=" ++ Str.quoted switch_number
    ++ ",port_number=" ++ Str.quoted port_number.

Definition get_monitoring_data (w : world) (switch_number port_number : string)
  : M dict :=
  try_except
    (end_time <- datetime_now w ;;
     let start_time := end_time - timedelta_hours 24 in
     let start_ts := int_timestamp w start_time in
     let end_ts := int_timestamp w end_time in
     let query := selector switch_number port_number in
     let params : dict :=
       [("query", JStr query); ("start", JInt start_ts);
        ("end", JInt end_ts); ("step", JStr "1h")] in
     response <- client_get w MONITOR_URL params ;;
     if Response.status_code response =? 200 then
       data <- lift (Response.json response) ;;
       ret [("status", JStr "success");
            ("data", data);
            ("query", JStr query);
            ("time_range",
              JDict [("start", JStr (isoformat w start_time));
                     ("end", JStr (isoformat w end_time))])]
     else
       ret [("status", JStr "error");
            ("error", JStr ("Monitoring API returned status "
                              ++ Str.of_Z (Response.status_code response)));
            ("response", JStr (Response.text response))])
    (fun e =>
       ret [("status", JStr "error");
            ("error", JStr ("Failed to query monitoring system: " ++ str_exn w e))]).

(** ** [get_usage_data] *)

Definition get_usage_data (w : world) (request : SSNRequest) : M Usage.t :=
  try_except
    (switch_port_data <- get_switch_port_data w (kennitala request) ;;
     if negb (Lookup.success switch_port_data) then
       raise (HTTPException 404 (Lookup.message switch_port_data))
     else
       usage_data <- get_monitoring_data w
                       (Lookup.switch_number switch_port_data)
                       (Lookup.port_number switch_port_data) ;;
       now <- datetime_now w ;;
       ret {| Usage.kennitala := kennitala request;
              Usage.switch_number := Lookup.switch_number switch_port_data;
              Usage.port_number := Lookup.port_number switch_port_data;
              Usage.usage_data := usage_data;
              Usage.timestamp := now |})
    (fun e =>
       raise (HTTPException 500 ("Error processing request: " ++ str_exn w e))).

(** ** The endpoint [POST /get-usage-data] as the framework serves it *)

Inductive reply : Type :=
| Reply (status : Z) (body : Usage.t)          (* the handler returned *)
| Unprocessable (msg : string)                 (* 422: the body did not validate *)
| ErrorReply (status : Z) (detail : string)    (* the handler raised [HTTPException] *)
| ServerError.                                 (* 500: any other exception *)

Definition status_of (r : reply) : Z :=
  match r with
  | Reply status _ => status
  | Unprocessable _ => 422
  | ErrorReply status _ => status
  | ServerError => 500
  end.

Definition post_get_usage_data (w : world) (body_kennitala : string)
  : state -> reply * state :=
  fun s =>
    match parse_SSNRequest body_kennitala with
    | ValidationError msg => (Unprocessable msg, s)
    | Crashed _ => (ServerError, s)
    | Parsed request =>
        match get_usage_data w request s with
        | (Return r, s') => (Reply 200 r, s')
        | (Raise (HTTPException c d), s') => (ErrorReply c d, s')
        | (Raise _, s') => (ServerError, s')
        end
    end.

Definition initial : state := {| ticks := 0; sent := [] |}.

(** ** Specification vocabulary *)

(** [take_digits n s] removes [n] leading digits of [s] and gives what
    follows them. *)
Fixpoint take_digits (n : nat) (s : string) : option string :=
  match n with
  | O => Some s
  | S n' =>
      match s with
      | String c s' => if Str.is_digit c then take_digits n' s' else None
      | EmptyString => None
      end
  end.

Definition drop_dash (s : string) : string :=
  match s with
  | String c s' => if Ascii.eqb c Str.DASH then s' else s
  | EmptyString => s
  end.

(** The shape of an identifier: six digits, an optional dash, four digits,
    and nothing else. *)
Definition shape_ok (v : string) : bool :=
  match take_digits 6 v with
  | Some r =>
      match take_digits 4 (drop_dash r) with
      | Some EmptyString => true
      | _ => false
      end
  | None => false
  end.

(** The two format checks of the validator (lines 18 and 25) taken
    together. *)
Definition format_check (v : string) : bool :=
  Re.matches pattern v && (Str.len (Str.replace Str.DASH "" v) =? 10).

(** The identifier without its separator. *)
Definition normalized (v : string) : string := Str.replace Str.DASH "" v.

(** The two digits of the normalized identifier at offsets [a] and [a+1],
    read as a number. *)
Definition field (a : nat) (v : string) : Z :=
  Str.int_acc 0 (Str.slice a (a + 2) (normalized v)).

Definition day_field (v : string) : Z := field 0 v.
Definition month_field (v : string) : Z := field 2 v.
Definition year_field (v : string) : Z := field 4 v.

(** The arguments of the call [datetime(full_year, month, day)] of line 40
    for a normalized identifier. *)
Definition datetime_args (clean_ssn : string) : outcome (Z * Z * Z) :=
  obind (Str.int (Str.slice 0 2 clean_ssn)) (fun day =>
  obind (Str.int (Str.slice 2 4 clean_ssn)) (fun month =>
  obind (Str.int (Str.slice 4 6 clean_ssn)) (fun year =>
  Return (full_year_of year, month, day)))).

(** The Gregorian calendar, stated on its own. *)
Definition leap_year (y : Z) : bool :=
  (y mod 400 =? 0) || ((y mod 4 =? 0) && negb (y mod 100 =? 0)).

Definition month_length (y m : Z) : Z :=
  match m with
  | 1 | 3 | 5 | 7 | 8 | 10 | 12 => 31
  | 4 | 6 | 9 | 11 => 30
  | 2 => if leap_year y then 29 else 28
  | _ => 0
  end.

Definition valid_calendar_date (y m d : Z) : bool :=
  (1 <=? m) && (m <=? 12) && (1 <=? d) && (d <=? month_length y m).

(** What [re.match] accepts: the shape, possibly followed by one line
    feed, which [$] lets through. *)
Definition shape_or_newline (v : string) : bool :=
  match take_digits 6 v with
  | Some r =>
      match take_digits 4 (drop_dash r) with
      | Some EmptyString => true
      | Some (String c EmptyString) => Ascii.eqb c Str.LF
      | _ => false
      end
  | None => false
  end.

(** The parameters of the metrics query for a window that ends at
    [end_time]. *)
Definition metrics_params (w : world) (switch_number port_number : string)
           (end_time : datetime) : dict :=
  [("query", JStr (selector switch_number port_number));
   ("start", JInt (int_timestamp w (end_time - timedelta_hours 24)));
   ("end", JInt (int_timestamp w end_time));
   ("step", JStr "1h")].

(** The payload for a backend that answered with a status other than 200. *)
Definition error_payload (response : Response.t) : dict :=
  [("status", JStr "error");
   ("error", JStr ("Monitoring API returned status "
                     ++ Str.of_Z (Response.status_code response)));
   ("response", JStr (Response.text response))].

(** The payload for a query that raised. *)
Definition failed_payload (w : world) (e : exn) : dict :=
  [("status", JStr "error");
   ("error", JStr ("Failed to query monitoring system: " ++ str_exn w e))].

(** The payload for a backend that answered 200 with [data]. *)
Definition success_payload (w : world) (switch_number port_number : string)
           (end_time : datetime) (data : json) : dict :=
  [("status", JStr "success");
   ("data", data);
   ("query", JStr (selector switch_number port_number));
   ("time_range",
     JDict [("start", JStr (isoformat w (end_time - timedelta_hours 24)));
            ("end", JStr (isoformat w end_time))])].

(** What [get_monitoring_data] returns for a window that ends at
    [end_time], by the answer of the backend. *)
Definition monitoring_payload (w : world) (switch_number port_number : string)
           (end_time : datetime) : dict :=
  match backend w MONITOR_URL
          (metrics_params w switch_number port_number end_time) with
  | Return response =>
      if Response.status_code response =? 200 then
        match Response.json response with
        | Return data => success_payload w switch_number port_number end_time data
        | Raise e => failed_payload w e
        end
      else error_payload response
  | Raise e => failed_payload w e
  end.

(** The state after one more reading of the clock and one more query. *)
Definition after_query (s : state) (params : dict) : state :=
  {| ticks := S (ticks s); sent := sent s ++ [(MONITOR_URL, params)] |}.

(** An identifier followed by a line feed. *)
Definition newline_input : string := "0101901234" ++ String Str.LF "".

(** Whether the validator returns. *)
Definition accepted (v : string) : bool :=
  match validate_kennitala v with
  | Return _ => true
  | Raise _ => false
  end.

(** The inputs of [TEST_CASES] in [test_api.py], in order. *)
Definition TEST_CASES : list string :=
  ["010190-1234"; "0101901234"; "311299-5678"; "010150-9999"; "010151-0000";
   "010100-1111"; "010150-0000"; "010151-0000"; "320190-1234"; "010190";
   "010190-12345"; "abc123-def4"].

(** ** Sample worlds *)

Definition sample_clock (n : nat) : datetime :=
  1762300800000000 + 250000 * Z.of_nat n.

Definition sample_isoformat (d : datetime) : string := Str.of_Z d.

Definition sample_str_HTTPException (c : Z) (d : string) : string :=
  Str.of_Z c ++ ": " ++ d.

Definition sample_world (dir : string -> outcome Lookup.t)
           (be : string -> dict -> outcome Response.t) : world :=
  {| directory := dir;
     clock := sample_clock;
     utcoffset := fun _ => 0;
     isoformat := sample_isoformat;
     backend := be;
     str_HTTPException := sample_str_HTTPException |}.

Definition backend_up (url : string) (params : dict) : outcome Response.t :=
  Return {| Response.status_code := 200;
            Response.text := "{}";
            Response.json := Return (JDict []) |}.

Definition backend_503 (url : string) (params : dict) : outcome Response.t :=
  Return {| Response.status_code := 503;
            Response.text := "Service Unavailable";
            Response.json := Raise (ValueError "Expecting value: line 1 column 1 (char 0)") |}.

Definition directory_unlisted (kennitala : string) : outcome Lookup.t :=
  Return {| Lookup.switch_number := "";
            Lookup.port_number := "";
            Lookup.success := false;
            Lookup.message := "No port registered" |}.

(** The repository as it stands: the placeholder directory. *)
Definition world_placeholder : world :=
  sample_world get_switch_port_data_placeholder backend_up.

Definition world_unlisted : world :=
  sample_world directory_unlisted backend_up.

Definition world_503 : world :=
  sample_world get_switch_port_data_placeholder backend_503.

(** A host on Central European time on 2025-03-30, the day the clocks went
    forward at 02:00: its clock reads 12:00:00, its offset from UTC is one
    hour before the change and two hours after it. *)
Definition NOON_2025_03_30 : datetime := 1743336000000000.
Definition CHANGE_2025_03_30 : datetime := 1743300000000000.

Definition world_berlin : world :=
  {| directory := get_switch_port_data_placeholder;
     clock := fun _ => NOON_2025_03_30;
     utcoffset := fun d => if d <? CHANGE_2025_03_30 then 3600 else 7200;
     isoformat := sample_isoformat;
     backend := backend_up;
     str_HTTPException := sample_str_HTTPException |}.

(** ** The other endpoints *)

(** [GET /]: the banner. *)
Definition root : dict :=
  [("message", JStr "Icelandic SSN Usage API"); ("version", JStr "1.0.0")].

Module Health.
(** What [GET /health] answers. *)
Record t : Type := {
  status : string;
  timestamp : datetime
}.
End Health.

(** [GET /health] *)
Definition health_check (w : world) : M Health.t :=
  now <- datetime_now w ;;
  ret {| Health.status := "healthy"; Health.timestamp := now |}.

(** ** The copy of the validator in [test_api.py] *)

Module TestApi.

(** [r'^\d{6}-?\d{4}$'], as line 110 has it. *)
Definition pattern : Re.regex :=
  Re.Seq Re.Bol
    (Re.Seq (Re.Rep 6 Re.Digit)
       (Re.Seq (Re.Opt (Re.Lit Str.DASH))
          (Re.Seq (Re.Rep 4 Re.Digit) Re.Eol))).

(** The function [test_kennitala_validation] defines for itself (lines
    108-137): where the validator of the API raises, this one returns
    [False] and the message; where that one returns the identifier, this
    one returns [True] and a fixed text. *)
Definition validate_kennitala (kennitala : string) : outcome (bool * string) :=
  if negb (Re.matches pattern kennitala) then
    Return (false,
            "Invalid kennitala format. Expected format: DDMMYY-XXXX or DDMMYYXXXX")
  else
    let clean_ssn := Str.replace Str.DASH "" kennitala in
    if negb (Str.len clean_ssn =? 10) then
      Return (false, "Kennitala must be exactly 10 digits")
    else
      obind (Str.int (Str.slice 0 2 clean_ssn)) (fun day =>
      obind (Str.int (Str.slice 2 4 clean_ssn)) (fun month =>
      obind (Str.int (Str.slice 4 6 clean_ssn)) (fun year =>
      let full_year := if year >? 50 then 1900 + year else 2000 + year in
      match Datetime.check_date_fields full_year month day with
      | Raise (ValueError _) => Return (false, "Invalid date in kennitala")
      | Raise e => Raise e
      | Return _ => Return (true, "Valid kennitala")
      end))).

End TestApi.

(** ** More vocabulary *)

(** The ten digits [r] written with the separator: [DDMMYY-XXXX]. *)
Definition with_dash (r : string) : string :=
  Str.slice 0 6 r ++ String Str.DASH (Str.slice 6 10 r).

(** No double quote occurs in [s]. *)
Fixpoint no_quote (s : string) : bool :=
  match s with
  | EmptyString => true
  | String c s' => negb (Ascii.eqb c Str.QUOTE) && no_quote s'
  end.

(** A backend that does not answer: the request raises. *)
Definition backend_down (url : string) (params : dict) : outcome Response.t :=
  Raise (OtherException "All connection attempts failed").

(** A backend that answers 200 with a body that is not JSON. *)
Definition backend_garbled (url : string) (params : dict) : outcome Response.t :=
  Return {| Response.status_code := 200;
            Response.text := "<html>";
            Response.json := Raise (ValueError "Expecting value: line 1 column 1 (char 0)") |}.

(** A directory that raises. *)
Definition directory_down (kennitala : string) : outcome Lookup.t :=
  Raise (OtherException "directory unreachable").

Definition world_down : world :=
  sample_world get_switch_port_data_placeholder backend_down.

Definition world_garbled : world :=
  sample_world get_switch_port_data_placeholder backend_garbled.

Definition world_no_directory : world :=
  sample_world directory_down backend_up.

(** * Facts *)

(** ** Characters and strings *)

Lemma is_digit_not_dash (c : ascii) :
  Str.is_digit c = true -> Ascii.eqb c Str.DASH = false.
Proof.
  intros H. destruct (Ascii.eqb_spec c Str.DASH) as [->|]; [discriminate H | reflexivity].
Qed.

Lemma is_digit_not_LF (c : ascii) :
  Str.is_digit c = true -> Ascii.eqb c Str.LF = false.
Proof.
  intros H. destruct (Ascii.eqb_spec c Str.LF) as [->|]; [discriminate H | reflexivity].
Qed.

Lemma append_assoc (s t u : string) : (s ++ t) ++ u = s ++ (t ++ u).
Proof. induction s; simpl; [reflexivity | now f_equal]. Qed.

Lemma append_nil_r (s : string) : s ++ "" = s.
Proof. induction s; simpl; [reflexivity | now f_equal]. Qed.

Lemma replace_app (old : ascii) (new s t : string) :
  Str.replace old new (s ++ t) = Str.replace old new s ++ Str.replace old new t.
Proof.
  induction s as [|c s IH]; simpl; [reflexivity|].
  rewrite IH. destruct (Ascii.eqb c old); simpl.
  - now rewrite append_assoc.
  - reflexivity.
Qed.

Lemma replace_digits (s : string) :
  Str.all_digits s = true -> Str.replace Str.DASH "" s = s.
Proof.
  induction s as [|c s IH]; simpl; [reflexivity|].
  intros H. apply andb_true_iff in H as [Hc Hs].
  rewrite (is_digit_not_dash c Hc), (IH Hs). reflexivity.
Qed.

Lemma length_app (s t : string) :
  String.length (s ++ t) = (String.length s + String.length t)%nat.
Proof. induction s; simpl; [reflexivity | now f_equal]. Qed.

Lemma all_digits_app (s t : string) :
  Str.all_digits (s ++ t) = Str.all_digits s && Str.all_digits t.
Proof.
  induction s as [|c s IH]; simpl; [reflexivity|].
  rewrite IH. now rewrite andb_assoc.
Qed.

(** [take_digits] splits off a run of exactly [n] digits. *)
Lemma take_digits_Some (n : nat) (s r : string) :
  take_digits n s = Some r <->
  exists d, s = d ++ r /\ String.length d = n /\ Str.all_digits d = true.
Proof.
  revert s. induction n as [|n IH]; intros s; simpl.
  - split.
    + intros [= ->]. exists "". auto.
    + intros (d & -> & Hl & _). destruct d; [reflexivity | discriminate Hl].
  - destruct s as [|c s].
    + split; [discriminate|].
      intros (d & Hs & Hl & _). destruct d; discriminate.
    + destruct (Str.is_digit c) eqn:Hc.
      * rewrite IH. split.
        -- intros (d & -> & Hl & Hd). exists (String c d). simpl.
           rewrite Hc, Hd, Hl. auto.
        -- intros (d & Hs & Hl & Hd). destruct d as [|c' d]; [discriminate Hl|].
           simpl in Hs, Hl, Hd. injection Hs as -> ->. injection Hl as Hl.
           apply andb_true_iff in Hd as [_ Hd]. exists d. auto.
      * split; [discriminate|].
        intros (d & Hs & Hl & Hd). destruct d as [|c' d]; [discriminate Hl|].
        simpl in Hs, Hd. injection Hs as -> ->. rewrite Hc in Hd. discriminate.
Qed.

(** ** The pattern *)

Lemma run_rep_digit (n pos : nat) (s : string) (k : nat -> string -> bool) :
  Re.run (Re.Rep n Re.Digit) pos s k =
  match take_digits n s with
  | Some r => k (pos + n)%nat r
  | None => false
  end.
Proof.
  revert pos s. induction n as [|n IH]; intros pos s.
  - simpl. now rewrite Nat.add_0_r.
  - change (Re.run (Re.Rep (S n) Re.Digit) pos s k)
      with (Re.run Re.Digit pos s (fun p t => Re.run (Re.Rep n Re.Digit) p t k)).
    destruct s as [|c s]; [reflexivity|].
    change (Re.run Re.Digit pos (String c s)
              (fun p t => Re.run (Re.Rep n Re.Digit) p t k))
      with (Str.is_digit c && Re.run (Re.Rep n Re.Digit) (S pos) s k).
    rewrite IH. simpl take_digits.
    destruct (Str.is_digit c); simpl andb; [|reflexivity].
    now rewrite Nat.add_succ_r.
Qed.


Lemma take4_dash (s : string) : take_digits 4 (String Str.DASH s) = None.
Proof. reflexivity. Qed.

Lemma matches_pattern (v : string) :
  Re.matches pattern v = shape_or_newline v.
Proof.
  unfold Re.matches, pattern, shape_or_newline.
  change (Re.run (Re.Seq Re.Bol ?r) 0 v ?k) with (Re.run r 0 v k).
  change (Re.run (Re.Seq (Re.Rep 6 Re.Digit) ?r) 0 v ?k)
    with (Re.run (Re.Rep 6 Re.Digit) 0 v (fun p t => Re.run r p t k)).
  rewrite run_rep_digit.
  destruct (take_digits 6 v) as [r|]; [|reflexivity].
  set (k' := fun (p : nat) (t : string) =>
               Re.run (Re.Seq (Re.Rep 4 Re.Digit) Re.Eol) p t (fun _ _ => true)).
  assert (Hk' : forall p t,
             k' p t = match take_digits 4 t with
                      | Some EmptyString => true
                      | Some (String c EmptyString) => Ascii.eqb c Str.LF
                      | _ => false
                      end).
  { intros p t. unfold k'.
    change (Re.run (Re.Seq (Re.Rep 4 Re.Digit) Re.Eol) p t (fun _ _ => true))
      with (Re.run (Re.Rep 4 Re.Digit) p t
              (fun p' t' => Re.run Re.Eol p' t' (fun _ _ => true))).
    rewrite run_rep_digit.
    destruct (take_digits 4 t) as [[|c [|c' t']]|]; simpl; try reflexivity.
    now rewrite andb_true_r. }
  change (Re.run (Re.Seq (Re.Opt (Re.Lit Str.DASH)) (Re.Seq (Re.Rep 4 Re.Digit) Re.Eol))
            (0 + 6) r (fun _ _ => true))
    with (Re.run (Re.Lit Str.DASH) (0 + 6) r k' || k' (0 + 6)%nat r).
  destruct r as [|c r].
  - simpl Re.run. rewrite Hk'. reflexivity.
  - change (Re.run (Re.Lit Str.DASH) (0 + 6) (String c r) k')
      with (Ascii.eqb c Str.DASH && k' (S (0 + 6)) r).
    rewrite !Hk'. unfold drop_dash.
    destruct (Ascii.eqb_spec c Str.DASH) as [->|Hc].
    + rewrite take4_dash, orb_false_r. reflexivity.
    + reflexivity.
Qed.

(** ** The shape, taken apart *)

Lemma parts (v t : string) :
  (exists r, take_digits 6 v = Some r /\ take_digits 4 (drop_dash r) = Some t) <->
  (exists d6 sep d4,
      v = d6 ++ sep ++ d4 ++ t /\
      String.length d6 = 6%nat /\ String.length d4 = 4%nat /\
      Str.all_digits d6 = true /\ Str.all_digits d4 = true /\
      (sep = "" \/ sep = String Str.DASH "")).
Proof.
  split.
  - intros (r & H6 & H4).
    apply take_digits_Some in H6 as (d6 & -> & Hl6 & Hd6).
    apply take_digits_Some in H4 as (d4 & Hr & Hl4 & Hd4).
    destruct r as [|c r]; simpl in Hr.
    + destruct d4; discriminate.
    + destruct (Ascii.eqb_spec c Str.DASH) as [->|Hc].
      * exists d6, (String Str.DASH ""), d4. subst r. simpl. auto 10.
      * exists d6, "", d4. rewrite Hr. simpl. auto 10.
  - intros (d6 & sep & d4 & -> & Hl6 & Hl4 & Hd6 & Hd4 & Hsep).
    exists (sep ++ d4 ++ t). split.
    + apply take_digits_Some. exists d6. auto.
    + apply take_digits_Some. exists d4. repeat split; auto.
      destruct Hsep as [-> | ->].
      * destruct d4 as [|c d4]; [discriminate Hl4|].
        simpl in Hd4. apply andb_true_iff in Hd4 as [Hc _].
        simpl. now rewrite (is_digit_not_dash c Hc).
      * reflexivity.
Qed.

Lemma shape_ok_parts (v : string) :
  shape_ok v = true <->
  exists d6 sep d4,
    v = d6 ++ sep ++ d4 /\
    String.length d6 = 6%nat /\ String.length d4 = 4%nat /\
    Str.all_digits d6 = true /\ Str.all_digits d4 = true /\
    (sep = "" \/ sep = String Str.DASH "").
Proof.
  transitivity (exists r, take_digits 6 v = Some r
                          /\ take_digits 4 (drop_dash r) = Some "").
  - unfold shape_ok. split.
    + destruct (take_digits 6 v) as [r|]; [|discriminate].
      destruct (take_digits 4 (drop_dash r)) as [[|c t]|] eqn:E; try discriminate.
      intros _. exists r. auto.
    + intros (r & -> & ->). reflexivity.
  - rewrite parts. split; intros (d6 & sep & d4 & H & Hr);
      exists d6, sep, d4; split; auto; now rewrite append_nil_r in *.
Qed.

(** The strings [re.match] accepts are the identifiers and the identifiers
    followed by one line feed. *)
Lemma shape_or_newline_cases (v : string) :
  shape_or_newline v = true <->
  shape_ok v = true \/
  exists s, shape_ok s = true /\ v = s ++ String Str.LF "".
Proof.
  split.
  - unfold shape_or_newline. intros H.
    destruct (take_digits 6 v) as [r|] eqn:E6; [|discriminate].
    destruct (take_digits 4 (drop_dash r)) as [[|c [|c' t]]|] eqn:E4; try discriminate.
    + left. unfold shape_ok. now rewrite E6, E4.
    + right. apply Ascii.eqb_eq in H. subst c.
      destruct (proj1 (parts v (String Str.LF ""))) as (d6 & sep & d4 & Hv & Hr).
      { exists r. auto. }
      exists (d6 ++ sep ++ d4). split.
      * apply shape_ok_parts. exists d6, sep, d4. tauto.
      * rewrite Hv, !append_assoc. reflexivity.
  - intros [H | (s & H & ->)].
    + unfold shape_ok in H. unfold shape_or_newline.
      destruct (take_digits 6 v) as [r|]; [|discriminate].
      destruct (take_digits 4 (drop_dash r)) as [[|c t]|]; try discriminate.
      reflexivity.
    + apply shape_ok_parts in H as (d6 & sep & d4 & -> & Hr).
      destruct (proj2 (parts ((d6 ++ sep ++ d4) ++ String Str.LF "") (String Str.LF "")))
        as (r & E6 & E4).
      { exists d6, sep, d4. rewrite !append_assoc. tauto. }
      unfold shape_or_newline. rewrite E6, E4. reflexivity.
Qed.

(** Removing the separator of an identifier leaves its ten digits. *)
Lemma normalized_parts (d6 sep d4 t : string) :
  Str.all_digits d6 = true -> Str.all_digits d4 = true ->
  sep = "" \/ sep = String Str.DASH "" ->
  normalized (d6 ++ sep ++ d4 ++ t) = d6 ++ d4 ++ normalized t.
Proof.
  intros H6 H4 Hsep. unfold normalized.
  rewrite !replace_app, (replace_digits d6 H6), (replace_digits d4 H4).
  destruct Hsep as [-> | ->]; reflexivity.
Qed.

Lemma normalized_shape (v : string) :
  shape_ok v = true ->
  String.length (normalized v) = 10%nat /\ Str.all_digits (normalized v) = true.
Proof.
  intros H. apply shape_ok_parts in H as (d6 & sep & d4 & -> & H6 & H4 & Hd6 & Hd4 & Hsep).
  rewrite <- (append_nil_r d4) at 1 2.
  rewrite normalized_parts by assumption.
  change (normalized "") with "". rewrite append_nil_r.
  rewrite length_app, all_digits_app, H6, H4, Hd6, Hd4. auto.
Qed.

(** The two checks of the validator accept exactly the identifiers. *)
Lemma format_check_shape (v : string) : format_check v = shape_ok v.
Proof.
  unfold format_check. rewrite matches_pattern.
  destruct (shape_ok v) eqn:Hs.
  - rewrite (proj2 (shape_or_newline_cases v)) by auto.
    destruct (normalized_shape v Hs) as [Hl _].
    unfold Str.len. fold (normalized v). rewrite Hl. reflexivity.
  - destruct (shape_or_newline v) eqn:Hn; [|reflexivity].
    apply shape_or_newline_cases in Hn as [Hn | (s & Hn & ->)]; [congruence|].
    simpl andb. unfold Str.len.
    destruct (normalized_shape s Hn) as [Hl _].
    unfold normalized in Hl. rewrite replace_app, length_app, Hl. reflexivity.
Qed.

(** ** Reading the digits *)

Lemma all_digits_substring (a n : nat) (s : string) :
  Str.all_digits s = true -> Str.all_digits (String.substring a n s) = true.
Proof.
  revert a n. induction s as [|c s IH]; intros a n H.
  - destruct a, n; reflexivity.
  - simpl in H. apply andb_true_iff in H as [Hc Hs].
    destruct a as [|a]; destruct n as [|n]; simpl; auto.
    rewrite Hc. simpl. auto.
Qed.

Lemma length_substring (a n : nat) (s : string) :
  (a + n <= String.length s)%nat -> String.length (String.substring a n s) = n.
Proof.
  revert a n. induction s as [|c s IH]; intros a n H; simpl in H.
  - destruct a, n; simpl; lia.
  - destruct a as [|a]; destruct n as [|n]; simpl; auto.
    + f_equal. apply IH. simpl. lia.
    + apply IH. lia.
    + apply IH. lia.
Qed.

Lemma int_digits (s : string) :
  s <> "" -> Str.all_digits s = true -> Str.int s = Return (Str.int_acc 0 s).
Proof.
  intros Hne Hd. destruct s; [congruence|]. unfold Str.int. now rewrite Hd.
Qed.

Lemma digit_value_range (c : ascii) :
  Str.is_digit c = true -> 0 <= Str.digit_value c <= 9.
Proof.
  unfold Str.is_digit, Str.digit_value. cbv zeta. intros H.
  apply andb_true_iff in H as [H1 H2].
  apply Nat.leb_le in H1. apply Nat.leb_le in H2. lia.
Qed.

Lemma two_digits_range (s : string) :
  String.length s = 2%nat -> Str.all_digits s = true ->
  0 <= Str.int_acc 0 s <= 99.
Proof.
  destruct s as [|a [|b [|c s]]]; try discriminate. intros _ H.
  simpl in H. rewrite andb_true_r in H. apply andb_true_iff in H as [Ha Hb].
  apply digit_value_range in Ha. apply digit_value_range in Hb.
  cbn [Str.int_acc]. lia.
Qed.

(** In a string of ten digits every two-character slice is a number
    between 0 and 99, and [int] reads it. *)
Lemma int_slice (clean : string) (a : nat) :
  String.length clean = 10%nat -> Str.all_digits clean = true ->
  (a + 2 <= 10)%nat ->
  Str.int (Str.slice a (a + 2) clean)
    = Return (Str.int_acc 0 (Str.slice a (a + 2) clean))
  /\ 0 <= Str.int_acc 0 (Str.slice a (a + 2) clean) <= 99.
Proof.
  intros Hl Hd Ha. unfold Str.slice.
  replace (a + 2 - a)%nat with 2%nat by lia.
  assert (H2 : String.length (String.substring a 2 clean) = 2%nat)
    by (apply length_substring; lia).
  assert (Hd2 := all_digits_substring a 2 clean Hd).
  split.
  - apply int_digits; [|assumption].
    intros E. rewrite E in H2. discriminate.
  - now apply two_digits_range.
Qed.

Lemma datetime_args_shape (v : string) :
  shape_ok v = true ->
  datetime_args (normalized v)
    = Return (full_year_of (year_field v), month_field v, day_field v)
  /\ 0 <= day_field v <= 99 /\ 0 <= month_field v <= 99 /\ 0 <= year_field v <= 99.
Proof.
  intros H. destruct (normalized_shape v H) as [Hl Hd].
  destruct (int_slice _ 0 Hl Hd) as [E0 R0]; [lia|].
  destruct (int_slice _ 2 Hl Hd) as [E2 R2]; [lia|].
  destruct (int_slice _ 4 Hl Hd) as [E4 R4]; [lia|].
  unfold datetime_args, day_field, month_field, year_field, field.
  simpl Nat.add in *. rewrite E0, E2, E4. simpl. auto.
Qed.

Lemma full_year_range (y : Z) :
  0 <= y <= 99 -> 1951 <= full_year_of y <= 2050.
Proof. unfold full_year_of. destruct (Z.gtb_spec y 50); lia. Qed.

(** ** The calendar *)

Lemma is_leap_leap_year (y : Z) : Datetime.is_leap y = leap_year y.
Proof.
  unfold Datetime.is_leap, leap_year.
  destruct (Z.eqb_spec (y mod 4) 0), (Z.eqb_spec (y mod 100) 0),
    (Z.eqb_spec (y mod 400) 0); simpl; try reflexivity; exfalso;
    Z.to_euclidean_division_equations; lia.
Qed.

Lemma days_in_month_length (y m : Z) :
  1 <= m <= 12 -> Datetime.days_in_month y m = month_length y m.
Proof.
  intros Hm. unfold Datetime.days_in_month. rewrite is_leap_leap_year.
  assert (C : m = 1 \/ m = 2 \/ m = 3 \/ m = 4 \/ m = 5 \/ m = 6 \/ m = 7
              \/ m = 8 \/ m = 9 \/ m = 10 \/ m = 11 \/ m = 12) by lia.
  repeat (destruct C as [-> | C]); try subst m; simpl;
    try reflexivity; destruct (leap_year y); reflexivity.
Qed.

(** Python's constructor accepts exactly the dates of the calendar. *)
Lemma check_date_fields_valid (y m d : Z) :
  1 <= y <= 9999 ->
  (valid_calendar_date y m d = true ->
   Datetime.check_date_fields y m d = Return tt) /\
  (valid_calendar_date y m d = false ->
   exists msg, Datetime.check_date_fields y m d = Raise (ValueError msg)).
Proof.
  intros Hy. unfold Datetime.check_date_fields, valid_calendar_date,
    Datetime.MINYEAR, Datetime.MAXYEAR.
  destruct (Z.leb_spec 1 y); [|lia]. destruct (Z.leb_spec y 9999); [|lia].
  simpl negb at 1. cbv iota.
  destruct (Z.leb_spec 1 m); destruct (Z.leb_spec m 12); simpl;
    try (split; [discriminate | eauto]).
  rewrite days_in_month_length by lia.
  destruct (Z.leb_spec 1 d); destruct (Z.leb_spec d (month_length y m)); simpl;
    split; try discriminate; eauto.
Qed.

(** ** The validator, case by case *)

(** The validator is its two format checks followed by the date check on
    [datetime_args]. *)
Lemma validate_kennitala_steps (v : string) :
  validate_kennitala v =
  if negb (Re.matches pattern v) then Raise (ValueError MSG_FORMAT)
  else if negb (Str.len (normalized v) =? 10) then Raise (ValueError MSG_LENGTH)
  else obind (datetime_args (normalized v)) (fun '(full_year, month, day) =>
         match Datetime.check_date_fields full_year month day with
         | Raise (ValueError _) => Raise (ValueError MSG_DATE)
         | Raise e => Raise e
         | Return _ => Return (normalized v)
         end).
Proof.
  unfold validate_kennitala, datetime_args, normalized.
  destruct (negb (Re.matches pattern v)); [reflexivity|].
  destruct (negb (Str.len (Str.replace Str.DASH "" v) =? 10)); [reflexivity|].
  destruct (Str.int (Str.slice 0 2 _)); [|reflexivity].
  destruct (Str.int (Str.slice 2 4 _)); [|reflexivity].
  destruct (Str.int (Str.slice 4 6 _)); reflexivity.
Qed.

Lemma format_check_true (v : string) :
  format_check v = true <->
  Re.matches pattern v = true /\ Str.len (normalized v) = 10.
Proof.
  unfold format_check, normalized.
  rewrite andb_true_iff, Z.eqb_eq. reflexivity.
Qed.

(** On an identifier the validator is the date check. *)
Lemma validate_shape (v : string) :
  shape_ok v = true ->
  validate_kennitala v =
  match Datetime.check_date_fields
          (full_year_of (year_field v)) (month_field v) (day_field v) with
  | Raise (ValueError _) => Raise (ValueError MSG_DATE)
  | Raise e => Raise e
  | Return _ => Return (normalized v)
  end.
Proof.
  intros H. rewrite validate_kennitala_steps.
  destruct (datetime_args_shape v H) as [E _].
  rewrite <- format_check_shape in H. apply format_check_true in H as [Hm Hl].
  rewrite Hm, Hl, E. reflexivity.
Qed.

(** Off the identifiers the validator fails at one of its format checks. *)
Lemma validate_not_shape (v : string) :
  shape_ok v = false ->
  validate_kennitala v =
  Raise (ValueError (if Re.matches pattern v then MSG_LENGTH else MSG_FORMAT)).
Proof.
  intros H. rewrite validate_kennitala_steps.
  rewrite <- format_check_shape in H. unfold format_check in H. fold (normalized v) in H.
  destruct (Re.matches pattern v); [|reflexivity].
  simpl in H. rewrite H. reflexivity.
Qed.

Lemma validate_Return_shape (v r : string) :
  validate_kennitala v = Return r -> shape_ok v = true /\ r = normalized v.
Proof.
  intros H. destruct (shape_ok v) eqn:Hs.
  - split; [reflexivity|]. rewrite (validate_shape v Hs) in H.
    destruct (Datetime.check_date_fields _ _ _) as [u|[m|c d|m]];
      [injection H as <-; reflexivity | discriminate..].
  - rewrite (validate_not_shape v Hs) in H. discriminate.
Qed.

Lemma split_at (n : nat) (s : string) :
  (n <= String.length s)%nat ->
  exists d t, s = d ++ t /\ String.length d = n.
Proof.
  revert s. induction n as [|n IH]; intros s H.
  - exists "", s. auto.
  - destruct s as [|c s]; simpl in H; [lia|].
    destruct (IH s) as (d & t & -> & Hl); [lia|].
    exists (String c d), t. simpl. auto.
Qed.

(** Ten digits in a row are an identifier, and already normalized. *)
Lemma ten_digits_shape (r : string) :
  String.length r = 10%nat -> Str.all_digits r = true ->
  shape_ok r = true /\ normalized r = r.
Proof.
  intros Hl Hd. split; [|now apply replace_digits].
  destruct (split_at 6 r) as (d6 & d4 & -> & H6); [lia|].
  rewrite length_app, H6 in Hl. rewrite all_digits_app in Hd.
  apply andb_true_iff in Hd as [Hd6 Hd4].
  apply shape_ok_parts. exists d6, "", d4. simpl.
  repeat split; auto. lia.
Qed.

(** ** The orchestrator, step by step *)

Lemma get_monitoring_data_run (w : world) (sw port : string) (s : state) :
  get_monitoring_data w sw port s =
  (Return (monitoring_payload w sw port (clock w (ticks s))),
   after_query s (metrics_params w sw port (clock w (ticks s)))).
Proof.
  unfold get_monitoring_data, try_except, bind, datetime_now, client_get, lift, ret,
    after_query, monitoring_payload, metrics_params. cbn [ticks sent].
  destruct (backend w MONITOR_URL _) as [response|e]; [|reflexivity].
  destruct (Response.status_code response =? 200); [|reflexivity].
  destruct (Response.json response); reflexivity.
Qed.

(** [get_monitoring_data] returns a dictionary whatever the backend does. *)
Lemma get_monitoring_data_returns (w : world) (sw port : string) (s : state) :
  exists d, get_monitoring_data w sw port s
            = (Return d, after_query s (metrics_params w sw port (clock w (ticks s)))).
Proof. rewrite get_monitoring_data_run. eauto. Qed.

Lemma get_usage_data_run (w : world) (request : SSNRequest) (s : state) :
  get_usage_data w request s =
  match directory w (kennitala request) with
  | Raise e =>
      (Raise (HTTPException 500 ("Error processing request: " ++ str_exn w e)), s)
  | Return l =>
      if Lookup.success l then
        match get_monitoring_data w (Lookup.switch_number l) (Lookup.port_number l) s with
        | (Return d, s1) =>
            (Return {| Usage.kennitala := kennitala request;
                       Usage.switch_number := Lookup.switch_number l;
                       Usage.port_number := Lookup.port_number l;
                       Usage.usage_data := d;
                       Usage.timestamp := clock w (ticks s1) |},
             {| ticks := S (ticks s1); sent := sent s1 |})
        | (Raise e, s1) =>
            (Raise (HTTPException 500 ("Error processing request: " ++ str_exn w e)), s1)
        end
      else
        (Raise (HTTPException 500
                  ("Error processing request: "
                     ++ str_HTTPException w 404 (Lookup.message l))), s)
  end.
Proof.
  unfold get_usage_data, try_except, bind, get_switch_port_data, lift.
  destruct (directory w (kennitala request)) as [l|e]; [|reflexivity].
  destruct (Lookup.success l); cbv beta iota delta [negb raise]; [|reflexivity].
  destruct (get_monitoring_data w _ _ s) as [[d|e] s1]; reflexivity.
Qed.

(** The placeholder directory finds every identifier. *)
Lemma placeholder_always_found (kennitala : string) :
  exists l, get_switch_port_data_placeholder kennitala = Return l
            /\ Lookup.success l = true
            /\ Lookup.switch_number l = "SW001"
            /\ Lookup.port_number l = "P001".
Proof. eexists. repeat split. Qed.

(** A request that validates and whose lookup succeeds is answered 200:
    one query goes out, the clock is read twice. *)
Lemma post_get_usage_data_found (w : world) (v : string) (s : state)
      (request : SSNRequest) (l : Lookup.t) :
  parse_SSNRequest v = Parsed request ->
  directory w (kennitala request) = Return l ->
  Lookup.success l = true ->
  post_get_usage_data w v s =
  (Reply 200
     {| Usage.kennitala := kennitala request;
        Usage.switch_number := Lookup.switch_number l;
        Usage.port_number := Lookup.port_number l;
        Usage.usage_data :=
          monitoring_payload w (Lookup.switch_number l) (Lookup.port_number l)
            (clock w (ticks s));
        Usage.timestamp := clock w (S (ticks s)) |},
   {| ticks := S (S (ticks s));
      sent := sent s ++ [(MONITOR_URL,
                          metrics_params w (Lookup.switch_number l)
                            (Lookup.port_number l) (clock w (ticks s)))] |}).
Proof.
  intros Hp Hd Hs. unfold post_get_usage_data.
  rewrite Hp, get_usage_data_run, Hd, Hs, get_monitoring_data_run.
  reflexivity.
Qed.

Lemma parse_Parsed (v : string) (request : SSNRequest) :
  parse_SSNRequest v = Parsed request ->
  shape_ok v = true /\ kennitala request = normalized v.
Proof.
  unfold parse_SSNRequest. intros H.
  destruct (validate_kennitala v) as [r|[m|c d|m]] eqn:E; try discriminate.
  injection H as <-. now apply validate_Return_shape in E.
Qed.

(** * The validator *)

(** C2.  For an identifier that passes the format check, with year digits
    [y]: the year handed to the calendar is [1900 + y] when [y > 50] and
    [2000 + y] otherwise, so 51..99 give 1951..1999 and 0..50 give
    2000..2050; "010151-0000" is 1951-01-01 and "010150-0000" is
    2050-01-01. *)
Theorem century_resolution (v : string) :
  format_check v = true ->
  0 <= year_field v <= 99 /\
  datetime_args (normalized v)
    = Return (if year_field v >? 50 then 1900 + year_field v
              else 2000 + year_field v,
              month_field v, day_field v) /\
  (year_field v > 50 ->
   full_year_of (year_field v) = 1900 + year_field v /\
   1951 <= full_year_of (year_field v) <= 1999) /\
  (year_field v <= 50 ->
   full_year_of (year_field v) = 2000 + year_field v /\
   2000 <= full_year_of (year_field v) <= 2050) /\
  datetime_args (normalized "010151-0000") = Return (1951, 1, 1) /\
  datetime_args (normalized "010150-0000") = Return (2050, 1, 1).
Proof.
  intros H. rewrite format_check_shape in H.
  destruct (datetime_args_shape v H) as (E & _ & _ & Hy).
  repeat split; try assumption; try lia; try reflexivity;
    unfold full_year_of in *; destruct (Z.gtb_spec (year_field v) 50); lia.
Qed.

Lemma century_resolution_witness :
  format_check "311299-5678" = true /\
  datetime_args (normalized "311299-5678") = Return (1999, 12, 31).
Proof.
  split; [reflexivity|].
  destruct (century_resolution "311299-5678" eq_refl) as (_ & E & _).
  exact E.
Defined.

(** C3.  A string of the shape six digits, optional dash, four digits
    whose day, month and resolved year are a date of the calendar
    validates, and the result is that string without the dash: ten
    digits. *)
Theorem valid_identifier_accepted (v : string) :
  shape_ok v = true ->
  valid_calendar_date (full_year_of (year_field v)) (month_field v) (day_field v)
    = true ->
  validate_kennitala v = Return (Str.replace Str.DASH "" v) /\
  Str.len (Str.replace Str.DASH "" v) = 10 /\
  Str.all_digits (Str.replace Str.DASH "" v) = true /\
  parse_SSNRequest v = Parsed {| kennitala := Str.replace Str.DASH "" v |}.
Proof.
  intros Hs Hv. fold (normalized v).
  destruct (datetime_args_shape v Hs) as (_ & _ & _ & Hy).
  destruct (check_date_fields_valid (full_year_of (year_field v))
              (month_field v) (day_field v)) as [Hok _].
  { pose proof (full_year_range _ Hy). lia. }
  assert (E : validate_kennitala v = Return (normalized v)).
  { rewrite (validate_shape v Hs), (Hok Hv). reflexivity. }
  destruct (normalized_shape v Hs) as [Hl Hd].
  repeat split; try assumption.
  - unfold Str.len. rewrite Hl. reflexivity.
  - unfold parse_SSNRequest. rewrite E. reflexivity.
Qed.

Lemma valid_identifier_accepted_witness :
  shape_ok "290200-1234" = true /\
  valid_calendar_date (full_year_of (year_field "290200-1234"))
    (month_field "290200-1234") (day_field "290200-1234") = true /\
  validate_kennitala "290200-1234" = Return "2902001234".
Proof.
  split; [reflexivity|]. split; [reflexivity|].
  exact (proj1 (valid_identifier_accepted "290200-1234" eq_refl eq_refl)).
Defined.

(** C4.  A string of the correct format whose day, month and resolved
    year are not a date of the calendar fails validation: the validator
    raises [ValueError], which the request model reports as a validation
    error; on the identifiers the message is the one of the date check. *)
Theorem impossible_date_rejected (v : string) :
  Re.matches pattern v = true ->
  valid_calendar_date (full_year_of (year_field v)) (month_field v) (day_field v)
    = false ->
  (exists msg, validate_kennitala v = Raise (ValueError msg) /\
               parse_SSNRequest v = ValidationError msg) /\
  (shape_ok v = true ->
   validate_kennitala v = Raise (ValueError MSG_DATE) /\
   parse_SSNRequest v = ValidationError MSG_DATE).
Proof.
  intros Hm Hv.
  assert (Hshape : shape_ok v = true ->
                   validate_kennitala v = Raise (ValueError MSG_DATE)).
  { intros Hs. destruct (datetime_args_shape v Hs) as (_ & _ & _ & Hy).
    destruct (check_date_fields_valid (full_year_of (year_field v))
                (month_field v) (day_field v)) as [_ Hbad].
    { pose proof (full_year_range _ Hy). lia. }
    destruct (Hbad Hv) as [msg E].
    rewrite (validate_shape v Hs), E. reflexivity. }
  assert (Hparse : forall msg, validate_kennitala v = Raise (ValueError msg) ->
                               parse_SSNRequest v = ValidationError msg).
  { intros msg E. unfold parse_SSNRequest. now rewrite E. }
  split.
  - destruct (shape_ok v) eqn:Hs.
    + exists MSG_DATE. auto.
    + exists MSG_LENGTH. pose proof (validate_not_shape v Hs) as E.
      rewrite Hm in E. auto.
  - intros Hs. auto.
Qed.

Lemma impossible_date_rejected_witness :
  Re.matches pattern "320190-1234" = true /\
  valid_calendar_date (full_year_of (year_field "320190-1234"))
    (month_field "320190-1234") (day_field "320190-1234") = false /\
  validate_kennitala "320190-1234" = Raise (ValueError MSG_DATE).
Proof.
  split; [reflexivity|]. split; [reflexivity|].
  exact (proj1 (proj2 (impossible_date_rejected "320190-1234" eq_refl eq_refl)
                  eq_refl)).
Defined.

(** C9.  The validator is idempotent: what it returns validates again, to
    itself. *)
Theorem validate_idempotent (s r : string) :
  validate_kennitala s = Return r -> validate_kennitala r = Return r.
Proof.
  intros H. destruct (validate_Return_shape s r H) as [Hs Hr].
  destruct (normalized_shape s Hs) as [Hl Hd]. rewrite <- Hr in Hl, Hd.
  destruct (ten_digits_shape r Hl Hd) as [Hrs Hrn].
  rewrite (validate_shape s Hs) in H. rewrite (validate_shape r Hrs).
  unfold year_field, month_field, day_field, field in *.
  rewrite Hrn, Hr.
  destruct (Datetime.check_date_fields _ _ _) as [u|[m|c d|m]];
    [reflexivity | discriminate..].
Qed.

Lemma validate_idempotent_witness :
  validate_kennitala "010190-1234" = Return "0101901234" /\
  validate_kennitala "0101901234" = Return "0101901234".
Proof.
  split; [reflexivity|].
  exact (validate_idempotent "010190-1234" "0101901234" eq_refl).
Defined.

(** C10, as the claim has it, fails: the pattern also matches an
    identifier followed by a line feed, whose dash-free form has eleven
    characters, and the validator then fails at its length check. *)
Lemma length_check_counterexample :
  Re.matches pattern newline_input = true /\
  Str.len (Str.replace Str.DASH "" newline_input) = 11 /\
  validate_kennitala newline_input = Raise (ValueError MSG_LENGTH).
Proof. repeat split. Qed.

(** C10, amended.  A string the pattern matches is an identifier, or an
    identifier followed by one line feed.  In the first case removing the
    dash leaves exactly ten characters and the length check passes; in the
    second it leaves eleven and the validator fails with "Kennitala must
    be exactly 10 digits". *)
Theorem length_check_cases (v : string) :
  Re.matches pattern v = true ->
  (shape_ok v = true /\
   Str.len (Str.replace Str.DASH "" v) = 10 /\
   validate_kennitala v <> Raise (ValueError MSG_LENGTH)) \/
  ((exists s, shape_ok s = true /\ v = s ++ String Str.LF "") /\
   Str.len (Str.replace Str.DASH "" v) = 11 /\
   validate_kennitala v = Raise (ValueError MSG_LENGTH)).
Proof.
  intros Hm. pose proof Hm as Hc. rewrite matches_pattern in Hc.
  apply shape_or_newline_cases in Hc as [Hs | (s & Hs & ->)].
  - left. split; [assumption|]. split.
    + destruct (normalized_shape v Hs) as [Hl _].
      unfold Str.len. fold (normalized v). now rewrite Hl.
    + rewrite (validate_shape v Hs).
      destruct (Datetime.check_date_fields _ _ _) as [u|[m|c d|m]]; discriminate.
  - right. split; [eauto|].
    assert (Hl : Str.len (Str.replace Str.DASH "" (s ++ String Str.LF "")) = 11).
    { destruct (normalized_shape s Hs) as [Hl _]. unfold normalized in Hl.
      unfold Str.len. rewrite replace_app, length_app, Hl. reflexivity. }
    split; [assumption|].
    rewrite validate_kennitala_steps, Hm. unfold normalized. rewrite Hl.
    reflexivity.
Qed.

Lemma length_check_cases_witness :
  Re.matches pattern newline_input = true /\
  ((shape_ok newline_input = true /\
    Str.len (Str.replace Str.DASH "" newline_input) = 10 /\
    validate_kennitala newline_input <> Raise (ValueError MSG_LENGTH)) \/
   ((exists s, shape_ok s = true /\ newline_input = s ++ String Str.LF "") /\
    Str.len (Str.replace Str.DASH "" newline_input) = 11 /\
    validate_kennitala newline_input = Raise (ValueError MSG_LENGTH))).
Proof.
  split; [reflexivity|].
  exact (length_check_cases newline_input eq_refl).
Defined.

(** * The orchestrator *)

(** C1.  When the directory lookup answers [success = false], the handler
    raises the 404 with the lookup's message inside its own [try], and the
    [except Exception] around it turns that into a 500: the endpoint
    answers 500, with the text of the 404 in the detail, and no query goes
    out. *)
Theorem lookup_failure_reply (w : world) (v : string) (s : state)
        (request : SSNRequest) (l : Lookup.t) :
  parse_SSNRequest v = Parsed request ->
  directory w (kennitala request) = Return l ->
  Lookup.success l = false ->
  post_get_usage_data w v s =
  (ErrorReply 500
     ("Error processing request: " ++ str_HTTPException w 404 (Lookup.message l)),
   s) /\
  status_of (fst (post_get_usage_data w v s)) <> 404.
Proof.
  intros Hp Hd Hs.
  assert (E : post_get_usage_data w v s =
              (ErrorReply 500
                 ("Error processing request: "
                    ++ str_HTTPException w 404 (Lookup.message l)), s)).
  { unfold post_get_usage_data. rewrite Hp, get_usage_data_run, Hd, Hs. reflexivity. }
  split; [exact E|]. rewrite E. simpl. lia.
Qed.

Lemma lookup_failure_reply_witness :
  parse_SSNRequest "010190-1234" = Parsed {| kennitala := "0101901234" |} /\
  Lookup.success
    {| Lookup.switch_number := ""; Lookup.port_number := "";
       Lookup.success := false; Lookup.message := "No port registered" |} = false /\
  post_get_usage_data world_unlisted "010190-1234" initial =
  (ErrorReply 500 "Error processing request: 404: No port registered", initial).
Proof.
  split; [reflexivity|]. split; [reflexivity|].
  exact (proj1 (lookup_failure_reply world_unlisted "010190-1234" initial
                  {| kennitala := "0101901234" |}
                  {| Lookup.switch_number := ""; Lookup.port_number := "";
                     Lookup.success := false;
                     Lookup.message := "No port registered" |}
                  eq_refl eq_refl eq_refl)).
Defined.

(** C5.  When the lookup succeeds and the metrics backend answers with a
    status other than 200, the endpoint answers 200 with a record whose
    [usage_data] has status "error", an error message that names the
    status, and the body of the backend's answer; and
    [get_monitoring_data] returns a dictionary, never an exception,
    whatever the backend does. *)
Theorem metrics_failure_is_soft (w : world) (v : string) (s : state)
        (request : SSNRequest) (l : Lookup.t) (response : Response.t) :
  parse_SSNRequest v = Parsed request ->
  directory w (kennitala request) = Return l ->
  Lookup.success l = true ->
  backend w MONITOR_URL
    (metrics_params w (Lookup.switch_number l) (Lookup.port_number l)
       (clock w (ticks s))) = Return response ->
  Response.status_code response <> 200 ->
  (exists r s',
      post_get_usage_data w v s = (Reply 200 r, s') /\
      dict_get (Usage.usage_data r) "status" = Some (JStr "error") /\
      dict_get (Usage.usage_data r) "error"
        = Some (JStr ("Monitoring API returned status "
                        ++ Str.of_Z (Response.status_code response))) /\
      dict_get (Usage.usage_data r) "response"
        = Some (JStr (Response.text response))) /\
  (forall sw port s0, exists d s1,
        get_monitoring_data w sw port s0 = (Return d, s1)).
Proof.
  intros Hp Hd Hs Hb Hc. split.
  - rewrite (post_get_usage_data_found w v s request l Hp Hd Hs).
    eexists. eexists. split; [reflexivity|].
    cbn [Usage.usage_data]. unfold monitoring_payload. rewrite Hb.
    destruct (Z.eqb_spec (Response.status_code response) 200); [contradiction|].
    repeat split.
  - intros sw port s0. destruct (get_monitoring_data_returns w sw port s0) as [d E].
    eauto.
Qed.

Lemma metrics_failure_is_soft_witness :
  exists r s',
    post_get_usage_data world_503 "010190-1234" initial = (Reply 200 r, s') /\
    dict_get (Usage.usage_data r) "status" = Some (JStr "error") /\
    dict_get (Usage.usage_data r) "error"
      = Some (JStr "Monitoring API returned status 503") /\
    dict_get (Usage.usage_data r) "response" = Some (JStr "Service Unavailable").
Proof.
  refine (proj1 (metrics_failure_is_soft world_503 "010190-1234" initial
                   {| kennitala := "0101901234" |}
                   {| Lookup.switch_number := "SW001"; Lookup.port_number := "P001";
                      Lookup.success := true; Lookup.message := "Success" |}
                   {| Response.status_code := 503;
                      Response.text := "Service Unavailable";
                      Response.json :=
                        Raise (ValueError "Expecting value: line 1 column 1 (char 0)") |}
                   eq_refl eq_refl eq_refl eq_refl _)).
  discriminate.
Defined.

(** C6.  When the lookup succeeds the endpoint answers with a record whose
    switch and port are exactly those of the lookup. *)
Theorem switch_port_echoed (w : world) (v : string) (s : state)
        (request : SSNRequest) (l : Lookup.t) :
  parse_SSNRequest v = Parsed request ->
  directory w (kennitala request) = Return l ->
  Lookup.success l = true ->
  exists r s',
    post_get_usage_data w v s = (Reply 200 r, s') /\
    Usage.switch_number r = Lookup.switch_number l /\
    Usage.port_number r = Lookup.port_number l.
Proof.
  intros Hp Hd Hs.
  rewrite (post_get_usage_data_found w v s request l Hp Hd Hs).
  eexists. eexists. repeat split.
Qed.

Lemma switch_port_echoed_witness :
  exists r s',
    post_get_usage_data world_placeholder "010190-1234" initial = (Reply 200 r, s') /\
    Usage.switch_number r = "SW001" /\
    Usage.port_number r = "P001".
Proof.
  exact (switch_port_echoed world_placeholder "010190-1234" initial
           {| kennitala := "0101901234" |}
           {| Lookup.switch_number := "SW001"; Lookup.port_number := "P001";
              Lookup.success := true; Lookup.message := "Success" |}
           eq_refl eq_refl eq_refl).
Defined.

(** C7, as the claim has it, fails: the record carries the value the
    validator returned, which has lost the dash of the submitted string. *)
Lemma identifier_echo_counterexample :
  exists r s',
    post_get_usage_data world_placeholder "010190-1234" initial = (Reply 200 r, s') /\
    Usage.kennitala r = "0101901234" /\
    Usage.kennitala r <> "010190-1234".
Proof.
  eexists. eexists. split; [reflexivity|]. split; [reflexivity | discriminate].
Qed.

(** C7, amended.  In every answer with a record, the identifier of the
    record is the submitted string without its dash, ten digits; it is the
    submitted string itself exactly when that had no dash. *)
Theorem identifier_normalized (w : world) (v : string) (s s' : state)
        (status : Z) (r : Usage.t) :
  post_get_usage_data w v s = (Reply status r, s') ->
  Usage.kennitala r = Str.replace Str.DASH "" v /\
  Str.len (Usage.kennitala r) = 10 /\
  Str.all_digits (Usage.kennitala r) = true /\
  (Usage.kennitala r = v <-> Str.all_digits v = true).
Proof.
  unfold post_get_usage_data. intros H.
  destruct (parse_SSNRequest v) as [request|msg|e] eqn:Hp; try discriminate.
  destruct (parse_Parsed v request Hp) as [Hs Hk].
  assert (Hr : Usage.kennitala r = normalized v).
  { rewrite get_usage_data_run in H.
    destruct (directory w (kennitala request)) as [l|e]; [|discriminate].
    destruct (Lookup.success l); [|discriminate].
    rewrite get_monitoring_data_run in H. injection H as _ <- _. exact Hk. }
  destruct (normalized_shape v Hs) as [Hl Hd].
  rewrite Hr. repeat split; try assumption.
  - unfold Str.len. now rewrite Hl.
  - intros E. now rewrite E in Hd.
  - intros Hv. now apply replace_digits.
Qed.

Lemma identifier_normalized_witness :
  post_get_usage_data world_placeholder "010190-1234" initial
  = (Reply 200
       {| Usage.kennitala := "0101901234";
          Usage.switch_number := "SW001";
          Usage.port_number := "P001";
          Usage.usage_data :=
            monitoring_payload world_placeholder "SW001" "P001" (sample_clock 0);
          Usage.timestamp := sample_clock 1 |},
     {| ticks := 2;
        sent := [(MONITOR_URL,
                  metrics_params world_placeholder "SW001" "P001" (sample_clock 0))] |})
  /\ Str.replace Str.DASH "" "010190-1234" = "0101901234".
Proof.
  split; [reflexivity|].
  exact (proj1 (identifier_normalized world_placeholder "010190-1234" initial _ _ _
                  eq_refl)).
Defined.

(** With the same offset from UTC at both ends, and a window that does not
    begin before the epoch, 24 hours of the wall clock are 86400 seconds. *)
Lemma window_one_day (w : world) (end_time : datetime) :
  utcoffset w (end_time - timedelta_hours 24) = utcoffset w end_time ->
  0 <= timestamp_us w (end_time - timedelta_hours 24) ->
  int_timestamp w (end_time - timedelta_hours 24)
  = int_timestamp w end_time - 86400.
Proof.
  unfold int_timestamp, timestamp_us, timedelta_hours. intros Ho Hs.
  rewrite Ho in *.
  rewrite !Z.quot_div_nonneg by lia.
  Z.to_euclidean_division_equations. lia.
Qed.

(** C8.  The window is meant to be the last 24 hours, with both ends in
    Unix-epoch seconds.  The code takes 24 hours off the naive wall-clock
    reading and converts each end with the offset from UTC in force at
    that end, so on a host whose offset changes inside the window the two
    ends are not 86400 seconds apart: at noon of 2025-03-30 on Central
    European time the query that goes out has them 82800 seconds apart.
    Its step is "1h" and its selector the equality filter, as they should
    be. *)
Theorem metrics_window_not_24_hours :
  sent (snd (get_monitoring_data world_berlin "SW001" "P001" initial))
  = [(MONITOR_URL,
      [("query", JStr (selector "SW001" "P001"));
       ("start", JInt 1743246000);
       ("end", JInt 1743328800);
       ("step", JStr "1h")])]
  /\ 1743246000 <> 1743328800 - 86400.
Proof. split; [reflexivity | discriminate]. Qed.

(** What every query carries.  [get_monitoring_data] issues exactly one
    query, to the range endpoint.  Its [end] is the reading of the clock
    and its [start] the wall-clock time 24 hours before that reading, each
    converted to Unix-epoch seconds; where the host's offset from UTC is
    the same at both and the window does not begin before the epoch, the
    two are the 86400 seconds apart that they are meant to be.  The step
    is "1h" and the selector is the equality filter on the switch and the
    port. *)
Lemma metrics_query_window (w : world) (sw port : string) (s : state) :
  exists params,
    sent (snd (get_monitoring_data w sw port s))
      = (sent s ++ [(MONITOR_URL, params)])%list /\
    dict_get params "end" = Some (JInt (int_timestamp w (clock w (ticks s)))) /\
    dict_get params "start"
      = Some (JInt (int_timestamp w (clock w (ticks s) - timedelta_hours 24))) /\
    timedelta_hours 24 = 86400 * 1000000 /\
    (utcoffset w (clock w (ticks s) - timedelta_hours 24)
       = utcoffset w (clock w (ticks s)) ->
     0 <= timestamp_us w (clock w (ticks s) - timedelta_hours 24) ->
     dict_get params "start"
       = Some (JInt (int_timestamp w (clock w (ticks s)) - 86400))) /\
    dict_get params "step" = Some (JStr "1h") /\
    dict_get params "query"
      = Some (JStr ("switch_number=" ++ Str.quoted sw
                      ++ ",port_number=" ++ Str.quoted port)).
Proof.
  exists (metrics_params w sw port (clock w (ticks s))).
  rewrite get_monitoring_data_run. cbn [snd after_query sent].
  repeat split.
  intros Ho Hs. cbn. now rewrite window_one_day.
Qed.

(** On a host that keeps one offset the window is 24 hours. *)
Lemma metrics_query_window_witness :
  exists params,
    sent (snd (get_monitoring_data world_placeholder "SW001" "P001" initial))
      = [(MONITOR_URL, params)] /\
    dict_get params "end" = Some (JInt 1762300800) /\
    dict_get params "start" = Some (JInt (1762300800 - 86400)) /\
    dict_get params "step" = Some (JStr "1h").
Proof.
  destruct (metrics_query_window world_placeholder "SW001" "P001" initial)
    as (params & Hsent & Hend & _ & _ & Hday & Hstep & _).
  exists params. repeat split; try assumption.
  apply Hday; [reflexivity | discriminate].
Defined.

(** * The inputs of [test_api.py] *)

(** The first eight inputs validate, the last four do not. *)
Example test_cases_accepted :
  map accepted TEST_CASES
  = [true; true; true; true; true; true; true; true; false; false; false; false].
Proof. reflexivity. Qed.

Example test_cases_results :
  map validate_kennitala TEST_CASES
  = [Return "0101901234"; Return "0101901234"; Return "3112995678";
     Return "0101509999"; Return "0101510000"; Return "0101001111";
     Return "0101500000"; Return "0101510000";
     Raise (ValueError MSG_DATE); Raise (ValueError MSG_FORMAT);
     Raise (ValueError MSG_FORMAT); Raise (ValueError MSG_FORMAT)].
Proof. reflexivity. Qed.

(** Day 32, month 13 and the 30th of February. *)
Example impossible_dates :
  map validate_kennitala ["320190-1234"; "011390-1234"; "300290-1234"; "290201-1234"]
  = [Raise (ValueError MSG_DATE); Raise (ValueError MSG_DATE);
     Raise (ValueError MSG_DATE); Raise (ValueError MSG_DATE)].
Proof. reflexivity. Qed.

(** The 29th of February of 2000 is a date, the year being a leap year. *)
Example leap_day_2000 : validate_kennitala "290200-1234" = Return "2902001234".
Proof. reflexivity. Qed.

(** Nine and eleven digits, and a dash in the wrong place, do not match. *)
Example wrong_lengths :
  map validate_kennitala ["010190123"; "01019012345"; "01019-01234"; ""]
  = [Raise (ValueError MSG_FORMAT); Raise (ValueError MSG_FORMAT);
     Raise (ValueError MSG_FORMAT); Raise (ValueError MSG_FORMAT)].
Proof. reflexivity. Qed.

(** With the placeholder directory and a backend that answers 200 the
    endpoint returns the placeholder's switch and port and a success
    payload. *)
Example placeholder_request :
  fst (post_get_usage_data world_placeholder "010190-1234" initial)
  = Reply 200
      {| Usage.kennitala := "0101901234";
         Usage.switch_number := "SW001";
         Usage.port_number := "P001";
         Usage.usage_data :=
           success_payload world_placeholder "SW001" "P001" (sample_clock 0) (JDict []);
         Usage.timestamp := sample_clock 1 |}.
Proof. reflexivity. Qed.

(** A body that does not validate is answered 422 and nothing is queried. *)
Example invalid_request :
  post_get_usage_data world_placeholder "320190-1234" initial
  = (Unprocessable MSG_DATE, initial).
Proof. reflexivity. Qed.

(** * Further properties of the validator *)

Lemma substring_app_l (d t : string) :
  String.substring 0 (String.length d) (d ++ t) = d.
Proof.
  induction d as [|c d IH]; simpl.
  - destruct t; reflexivity.
  - now rewrite IH.
Qed.

Lemma substring_app_r (d t : string) (m : nat) :
  String.substring (String.length d) m (d ++ t) = String.substring 0 m t.
Proof. induction d as [|c d IH]; simpl; [reflexivity | exact IH]. Qed.

Lemma substring_all (t : string) :
  String.substring 0 (String.length t) t = t.
Proof. induction t as [|c t IH]; simpl; [reflexivity | now rewrite IH]. Qed.

(** The dash goes back where it was. *)
Lemma with_dash_parts (d6 d4 : string) :
  String.length d6 = 6%nat -> String.length d4 = 4%nat ->
  with_dash (d6 ++ d4) = d6 ++ String Str.DASH d4.
Proof.
  intros H6 H4. unfold with_dash, Str.slice.
  assert (E1 : String.substring 0 (6 - 0) (d6 ++ d4) = d6).
  { simpl Nat.sub. rewrite <- H6. apply substring_app_l. }
  assert (E2 : String.substring 6 (10 - 6) (d6 ++ d4) = d4).
  { simpl Nat.sub. rewrite <- H6, substring_app_r, <- H4. apply substring_all. }
  now rewrite E1, E2.
Qed.

(** What the validator returned it returns again. *)
Lemma validate_again (s r : string) :
  validate_kennitala s = Return r -> validate_kennitala r = Return r.
Proof.
  intros H. destruct (validate_Return_shape s r H) as [Hs Hr].
  destruct (normalized_shape s Hs) as [Hl Hd]. rewrite <- Hr in Hl, Hd.
  destruct (ten_digits_shape r Hl Hd) as [Hrs Hrn].
  rewrite (validate_shape s Hs) in H. rewrite (validate_shape r Hrs).
  unfold year_field, month_field, day_field, field in *.
  rewrite Hrn, Hr.
  destruct (Datetime.check_date_fields _ _ _) as [u|[m|c d|m]];
    [reflexivity | discriminate..].
Qed.

(** The date check on an identifier, by the calendar. *)
Lemma validate_shape_calendar (v : string) :
  shape_ok v = true ->
  validate_kennitala v =
  if valid_calendar_date (full_year_of (year_field v)) (month_field v) (day_field v)
  then Return (normalized v) else Raise (ValueError MSG_DATE).
Proof.
  intros Hs. rewrite (validate_shape v Hs).
  destruct (datetime_args_shape v Hs) as (_ & _ & _ & Hy).
  destruct (check_date_fields_valid (full_year_of (year_field v))
              (month_field v) (day_field v)) as [Hok Hbad].
  { pose proof (full_year_range _ Hy). lia. }
  destruct (valid_calendar_date _ _ _).
  - now rewrite Hok.
  - destruct Hbad as [msg ->]; reflexivity.
Qed.

(** X1.  The validator is decided by three tests in the order of the
    source: the pattern, the length of the dash-free string, the calendar.
    It raises nothing but [ValueError] with one of its own three messages:
    [int] never fails on its path and the message of [datetime] never
    comes out. *)
Theorem validate_kennitala_decided (v : string) :
  validate_kennitala v =
  if negb (Re.matches pattern v) then Raise (ValueError MSG_FORMAT)
  else if negb (Str.len (Str.replace Str.DASH "" v) =? 10)
  then Raise (ValueError MSG_LENGTH)
  else if valid_calendar_date (full_year_of (year_field v))
            (month_field v) (day_field v)
  then Return (Str.replace Str.DASH "" v)
  else Raise (ValueError MSG_DATE).
Proof.
  destruct (shape_ok v) eqn:Hs.
  - rewrite (validate_shape_calendar v Hs).
    rewrite <- format_check_shape in Hs. apply format_check_true in Hs as [Hm Hl].
    unfold normalized in *. rewrite Hm, Hl. reflexivity.
  - rewrite (validate_not_shape v Hs).
    rewrite <- format_check_shape in Hs. unfold format_check in Hs.
    destruct (Re.matches pattern v); [|reflexivity].
    simpl in Hs. simpl negb. cbv iota. rewrite Hs. reflexivity.
Qed.

(** X2.  Whether an identifier is written with its dash or without makes
    no difference to the validator, the error included. *)
Theorem separator_irrelevant (v : string) :
  Re.matches pattern v = true ->
  validate_kennitala (Str.replace Str.DASH "" v) = validate_kennitala v.
Proof.
  intros Hm. fold (normalized v).
  pose proof Hm as Hc. rewrite matches_pattern in Hc.
  apply shape_or_newline_cases in Hc as [Hs | (s & Hs & ->)].
  - destruct (normalized_shape v Hs) as [Hl Hd].
    destruct (ten_digits_shape _ Hl Hd) as [Hrs Hrn].
    rewrite (validate_shape v Hs), (validate_shape _ Hrs).
    unfold year_field, month_field, day_field, field. rewrite !Hrn. reflexivity.
  - destruct (normalized_shape s Hs) as [Hl Hd].
    destruct (ten_digits_shape _ Hl Hd) as [Hrs Hrn].
    assert (Hn : normalized (s ++ String Str.LF "") = normalized s ++ String Str.LF "").
    { unfold normalized. now rewrite replace_app. }
    assert (Hbad : forall t, shape_ok t = true ->
              validate_kennitala (t ++ String Str.LF "") = Raise (ValueError MSG_LENGTH)).
    { intros t Ht. rewrite validate_kennitala_steps.
      rewrite matches_pattern, (proj2 (shape_or_newline_cases _)) by eauto.
      destruct (normalized_shape t Ht) as [Htl _]. unfold normalized in *.
      unfold Str.len. rewrite replace_app, length_app, Htl. reflexivity. }
    rewrite Hn, (Hbad s Hs), (Hbad _ Hrs). reflexivity.
Qed.

Lemma separator_irrelevant_witness :
  Re.matches pattern "300290-1234" = true /\
  validate_kennitala "3002901234" = validate_kennitala "300290-1234".
Proof.
  split; [reflexivity|].
  exact (separator_irrelevant "300290-1234" eq_refl).
Defined.

(** X3.  An identifier the validator returns has exactly two accepted
    spellings: itself and itself with a dash after the sixth digit. *)
Theorem accepted_spellings (v r : string) :
  validate_kennitala v = Return r <->
  validate_kennitala r = Return r /\ (v = r \/ v = with_dash r).
Proof.
  split.
  - intros H. split; [exact (validate_again v r H)|].
    destruct (validate_Return_shape v r H) as [Hs ->].
    apply shape_ok_parts in Hs as (d6 & sep & d4 & -> & H6 & H4 & Hd6 & Hd4 & Hsep).
    rewrite <- (append_nil_r d4) at 2 4.
    rewrite normalized_parts by assumption.
    change (normalized "") with "". rewrite append_nil_r.
    destruct Hsep as [-> | ->].
    + left. reflexivity.
    + right. now rewrite with_dash_parts.
  - intros [H [-> | ->]]; [exact H|].
    destruct (validate_Return_shape r r H) as [Hs Hr].
    destruct (normalized_shape r Hs) as [Hl Hd]. rewrite <- Hr in Hl, Hd.
    destruct (split_at 6 r) as (d6 & d4 & -> & H6); [lia|].
    rewrite length_app, H6 in Hl. rewrite all_digits_app in Hd.
    apply andb_true_iff in Hd as [Hd6 Hd4].
    assert (H4 : String.length d4 = 4%nat) by lia.
    rewrite with_dash_parts by assumption.
    assert (Hv : shape_ok (d6 ++ String Str.DASH d4) = true).
    { apply shape_ok_parts. exists d6, (String Str.DASH ""), d4. auto 10. }
    assert (Hn : normalized (d6 ++ String Str.DASH d4) = d6 ++ d4).
    { pose proof (normalized_parts d6 (String Str.DASH "") d4 "" Hd6 Hd4) as E.
      rewrite !append_nil_r in E. apply E. now right. }
    rewrite (validate_shape _ Hs) in H. rewrite (validate_shape _ Hv).
    unfold year_field, month_field, day_field, field in *.
    rewrite Hn. rewrite <- Hr in H. exact H.
Qed.

Lemma accepted_spellings_witness :
  validate_kennitala "010190-1234" = Return "0101901234" /\
  validate_kennitala "0101901234" = Return "0101901234" /\
  ("010190-1234" = "0101901234" \/ "010190-1234" = with_dash "0101901234").
Proof.
  split; [reflexivity|].
  exact (proj1 (accepted_spellings "010190-1234" "0101901234") eq_refl).
Defined.

Lemma month_length_bounds (y m : Z) : 0 <= month_length y m <= 31.
Proof.
  unfold month_length. destruct m as [|p|p]; [lia | | lia].
  do 4 (try destruct p as [p|p|]); simpl; try destruct (leap_year y); lia.
Qed.

(** X4.  An identifier the validator accepts is of the shape and names a
    day of the calendar between 1951-01-01 and 2050-12-31; the result is
    the input without its dash. *)
Theorem accepted_is_a_date (v r : string) :
  validate_kennitala v = Return r ->
  shape_ok v = true /\
  r = Str.replace Str.DASH "" v /\
  valid_calendar_date (full_year_of (year_field v)) (month_field v) (day_field v)
    = true /\
  1951 <= full_year_of (year_field v) <= 2050 /\
  1 <= month_field v <= 12 /\
  1 <= day_field v <= 31.
Proof.
  intros H. destruct (validate_Return_shape v r H) as [Hs Hr].
  destruct (datetime_args_shape v Hs) as (_ & _ & _ & Hy).
  rewrite (validate_shape_calendar v Hs) in H.
  destruct (valid_calendar_date _ _ _) eqn:Hv; [|discriminate].
  pose proof (full_year_range _ Hy) as Hfy.
  pose proof (month_length_bounds (full_year_of (year_field v)) (month_field v)).
  unfold valid_calendar_date in Hv.
  repeat (apply andb_true_iff in Hv as [Hv ?]).
  repeat split; try assumption; try reflexivity; lia.
Qed.

Lemma accepted_is_a_date_witness :
  validate_kennitala "311299-5678" = Return "3112995678" /\
  full_year_of (year_field "311299-5678") = 1999 /\
  month_field "311299-5678" = 12 /\
  day_field "311299-5678" = 31 /\
  shape_ok "311299-5678" = true.
Proof.
  split; [reflexivity|]. split; [reflexivity|]. split; [reflexivity|].
  split; [reflexivity|].
  exact (proj1 (accepted_is_a_date "311299-5678" "3112995678" eq_refl)).
Defined.

Lemma leap_year_two_digits (y : Z) :
  0 <= y <= 99 -> leap_year (full_year_of y) = (y mod 4 =? 0).
Proof.
  intros Hy. unfold leap_year, full_year_of.
  destruct (Z.gtb_spec y 50);
    [ destruct (Z.eqb_spec ((1900 + y) mod 400) 0),
        (Z.eqb_spec ((1900 + y) mod 4) 0), (Z.eqb_spec ((1900 + y) mod 100) 0)
    | destruct (Z.eqb_spec ((2000 + y) mod 400) 0),
        (Z.eqb_spec ((2000 + y) mod 4) 0), (Z.eqb_spec ((2000 + y) mod 100) 0) ];
    destruct (Z.eqb_spec (y mod 4) 0); simpl; try reflexivity; exfalso;
    Z.to_euclidean_division_equations; lia.
Qed.

(** X5.  The 29th of February is accepted exactly for the year digits that
    are a multiple of four, 00 included: the year 2000 that 00 stands for
    is a leap year. *)
Theorem leap_day_accepted (v : string) :
  shape_ok v = true ->
  day_field v = 29 -> month_field v = 2 ->
  (accepted v = true <-> year_field v mod 4 = 0).
Proof.
  intros Hs Hd Hm. unfold accepted.
  rewrite (validate_shape_calendar v Hs), Hd, Hm.
  destruct (datetime_args_shape v Hs) as (_ & _ & _ & Hy).
  unfold valid_calendar_date, month_length.
  rewrite (leap_year_two_digits _ Hy).
  destruct (Z.eqb_spec (year_field v mod 4) 0) as [E|E]; simpl.
  - tauto.
  - split; [discriminate | contradiction].
Qed.

Lemma leap_day_accepted_witness :
  shape_ok "290200-1234" = true /\
  year_field "290200-1234" mod 4 = 0 /\
  accepted "290200-1234" = true.
Proof.
  split; [reflexivity|]. split; [reflexivity|].
  exact (proj2 (leap_day_accepted "290200-1234" eq_refl eq_refl eq_refl) eq_refl).
Defined.

(** X6.  The century rule is one-to-one from the year digits 00..99 onto
    the years 1951..2050: the digits of a year in that range resolve to
    that year and to no other. *)
Theorem century_rule_bijective (y Y : Z) :
  0 <= y <= 99 -> 1951 <= Y <= 2050 ->
  (full_year_of y = Y <-> y = Y mod 100).
Proof.
  intros Hy HY. unfold full_year_of.
  destruct (Z.gtb_spec y 50); split; intros E;
    Z.to_euclidean_division_equations; lia.
Qed.

Lemma century_rule_bijective_witness :
  full_year_of 0 = 2000 /\ full_year_of 51 = 1951 /\ full_year_of 50 = 2050.
Proof.
  split; [|split].
  - apply (century_rule_bijective 0 2000); [lia | lia | reflexivity].
  - apply (century_rule_bijective 51 1951); [lia | lia | reflexivity].
  - apply (century_rule_bijective 50 2050); [lia | lia | reflexivity].
Defined.

(** X7.  The copy of the validator in [test_api.py] agrees with the
    validator of the API on every string: it says [True] exactly where
    that one returns, and where that one raises it says [False] with the
    same message. *)
Theorem test_copy_agrees (v : string) :
  TestApi.validate_kennitala v =
  match validate_kennitala v with
  | Return _ => Return (true, "Valid kennitala")
  | Raise (ValueError msg) => Return (false, msg)
  | Raise e => Raise e
  end.
Proof.
  unfold TestApi.validate_kennitala.
  change TestApi.pattern with pattern.
  rewrite validate_kennitala_steps. unfold normalized.
  destruct (Re.matches pattern v) eqn:Hm; [|reflexivity].
  destruct (Str.len (Str.replace Str.DASH "" v) =? 10) eqn:Hl; [|reflexivity].
  assert (Hs : shape_ok v = true).
  { rewrite <- format_check_shape. unfold format_check. now rewrite Hm, Hl. }
  destruct (normalized_shape v Hs) as [Hlen Hd]. unfold normalized in *.
  destruct (int_slice _ 0 Hlen Hd) as [E0 _]; [lia|].
  destruct (int_slice _ 2 Hlen Hd) as [E2 _]; [lia|].
  destruct (int_slice _ 4 Hlen Hd) as [E4 R4]; [lia|].
  simpl Nat.add in *. unfold datetime_args. simpl negb. cbv iota.
  rewrite E0, E2, E4. cbn [obind]. fold (full_year_of (Str.int_acc 0 (Str.slice 4 6 (Str.replace Str.DASH "" v)))).
  destruct (check_date_fields_valid
              (full_year_of (Str.int_acc 0 (Str.slice 4 6 (Str.replace Str.DASH "" v))))
              (Str.int_acc 0 (Str.slice 2 4 (Str.replace Str.DASH "" v)))
              (Str.int_acc 0 (Str.slice 0 2 (Str.replace Str.DASH "" v)))) as [Hok Hbad].
  { pose proof (full_year_range _ R4). lia. }
  destruct (valid_calendar_date _ _ _).
  - now rewrite Hok.
  - destruct Hbad as [msg ->]; reflexivity.
Qed.

Lemma test_copy_agrees_on_cases :
  map TestApi.validate_kennitala ["010190-1234"; "320190-1234"; "010190"]
  = [Return (true, "Valid kennitala");
     Return (false, "Invalid date in kennitala");
     Return (false,
             "Invalid kennitala format. Expected format: DDMMYY-XXXX or DDMMYYXXXX")].
Proof. reflexivity. Qed.

(** * Further properties of the orchestrator *)

(** The endpoint, case by case. *)
Lemma post_get_usage_data_run (w : world) (v : string) (s : state) :
  post_get_usage_data w v s =
  match validate_kennitala v with
  | Raise (ValueError msg) => (Unprocessable msg, s)
  | Raise _ => (ServerError, s)
  | Return r =>
      match directory w r with
      | Raise e =>
          (ErrorReply 500 ("Error processing request: " ++ str_exn w e), s)
      | Return l =>
          if Lookup.success l then
            (Reply 200
               {| Usage.kennitala := r;
                  Usage.switch_number := Lookup.switch_number l;
                  Usage.port_number := Lookup.port_number l;
                  Usage.usage_data :=
                    monitoring_payload w (Lookup.switch_number l)
                      (Lookup.port_number l) (clock w (ticks s));
                  Usage.timestamp := clock w (S (ticks s)) |},
             {| ticks := S (S (ticks s));
                sent := sent s ++ [(MONITOR_URL,
                                    metrics_params w (Lookup.switch_number l)
                                      (Lookup.port_number l) (clock w (ticks s)))] |})
          else
            (ErrorReply 500
               ("Error processing request: "
                  ++ str_HTTPException w 404 (Lookup.message l)), s)
      end
  end.
Proof.
  unfold post_get_usage_data, parse_SSNRequest.
  destruct (validate_kennitala v) as [r|[msg|c d|msg]]; try reflexivity.
  rewrite get_usage_data_run. cbn [kennitala].
  destruct (directory w r) as [l|e]; [|reflexivity].
  destruct (Lookup.success l); [|reflexivity].
  rewrite get_monitoring_data_run. reflexivity.
Qed.

Lemma accepted_Return (v : string) :
  accepted v = true <-> validate_kennitala v = Return (normalized v).
Proof.
  unfold accepted. split.
  - destruct (validate_kennitala v) as [r|e] eqn:E; [|discriminate].
    intros _. now destruct (validate_Return_shape v r E) as [_ ->].
  - now intros ->.
Qed.

Lemma rejected_Raise (v : string) :
  accepted v = false <-> exists msg, validate_kennitala v = Raise (ValueError msg).
Proof.
  unfold accepted. destruct (shape_ok v) eqn:Hs.
  - rewrite (validate_shape_calendar v Hs).
    destruct (valid_calendar_date _ _ _); split; eauto; try discriminate.
    intros [msg E]. discriminate.
  - rewrite (validate_not_shape v Hs). split; eauto.
Qed.

(** X8.  When the backend answers 200 with a JSON body, the payload says
    "success", carries that body as [data], repeats the selector that was
    sent, gives the two ends of the window in ISO format, and has no
    [error] and no [response]. *)
Theorem metrics_success_payload (w : world) (sw port : string) (s : state)
        (response : Response.t) (data : json) :
  backend w MONITOR_URL (metrics_params w sw port (clock w (ticks s)))
    = Return response ->
  Response.status_code response = 200 ->
  Response.json response = Return data ->
  exists d s',
    get_monitoring_data w sw port s = (Return d, s') /\
    dict_get d "status" = Some (JStr "success") /\
    dict_get d "data" = Some data /\
    dict_get d "query"
      = dict_get (metrics_params w sw port (clock w (ticks s))) "query" /\
    dict_get d "time_range"
      = Some (JDict [("start",
                      JStr (isoformat w (clock w (ticks s) - timedelta_hours 24)));
                     ("end", JStr (isoformat w (clock w (ticks s))))]) /\
    dict_get d "error" = None /\
    dict_get d "response" = None.
Proof.
  intros Hb Hc Hj. rewrite get_monitoring_data_run.
  eexists. eexists. split; [reflexivity|].
  unfold monitoring_payload. rewrite Hb, Hc, Hj. simpl Z.eqb. cbv iota.
  repeat split.
Qed.

Lemma metrics_success_payload_witness :
  exists d s',
    get_monitoring_data world_placeholder "SW001" "P001" initial = (Return d, s') /\
    dict_get d "status" = Some (JStr "success") /\
    dict_get d "data" = Some (JDict []).
Proof.
  destruct (metrics_success_payload world_placeholder "SW001" "P001" initial
              {| Response.status_code := 200; Response.text := "{}";
                 Response.json := Return (JDict []) |} (JDict [])
              eq_refl eq_refl eq_refl)
    as (d & s' & E & Hstatus & Hdata & _).
  exists d, s'. auto.
Defined.

(** X9.  When the request to the backend raises, or the backend answers
    200 with a body that is not JSON, the payload says "error", its
    message is "Failed to query monitoring system: " followed by the text
    of the exception, and it has no [response] and no [data]: the raw body
    is attached only for a status other than 200. *)
Theorem metrics_exception_payload (w : world) (sw port : string) (s : state)
        (e : exn) :
  backend w MONITOR_URL (metrics_params w sw port (clock w (ticks s))) = Raise e
  \/ (exists response,
         backend w MONITOR_URL (metrics_params w sw port (clock w (ticks s)))
           = Return response /\
         Response.status_code response = 200 /\
         Response.json response = Raise e) ->
  exists d s',
    get_monitoring_data w sw port s = (Return d, s') /\
    dict_get d "status" = Some (JStr "error") /\
    dict_get d "error"
      = Some (JStr ("Failed to query monitoring system: " ++ str_exn w e)) /\
    dict_get d "response" = None /\
    dict_get d "data" = None.
Proof.
  intros H. rewrite get_monitoring_data_run.
  eexists. eexists. split; [reflexivity|].
  unfold monitoring_payload.
  destruct H as [Hb | (response & Hb & Hc & Hj)].
  - rewrite Hb. repeat split.
  - rewrite Hb, Hc, Hj. simpl Z.eqb. cbv iota. repeat split.
Qed.

Lemma metrics_exception_payload_witness :
  (exists d s',
      get_monitoring_data world_down "SW001" "P001" initial = (Return d, s') /\
      dict_get d "error"
        = Some (JStr "Failed to query monitoring system: All connection attempts failed") /\
      dict_get d "response" = None) /\
  (exists d s',
      get_monitoring_data world_garbled "SW001" "P001" initial = (Return d, s') /\
      dict_get d "status" = Some (JStr "error") /\
      dict_get d "response" = None).
Proof.
  split.
  - destruct (metrics_exception_payload world_down "SW001" "P001" initial
                (OtherException "All connection attempts failed") (or_introl eq_refl))
      as (d & s' & E & _ & Herr & Hresp & _).
    exists d, s'. auto.
  - destruct (metrics_exception_payload world_garbled "SW001" "P001" initial
                (ValueError "Expecting value: line 1 column 1 (char 0)")
                (or_intror
                   (ex_intro _
                      {| Response.status_code := 200; Response.text := "<html>";
                         Response.json :=
                           Raise (ValueError "Expecting value: line 1 column 1 (char 0)") |}
                      (conj eq_refl (conj eq_refl eq_refl)))))
      as (d & s' & E & Hstatus & _ & Hresp & _).
    exists d, s'. auto.
Defined.

Lemma monitoring_payload_status (w : world) (sw port : string) (end_time : datetime) :
  (dict_get (monitoring_payload w sw port end_time) "status" = Some (JStr "success")
   /\ dict_get (monitoring_payload w sw port end_time) "data" <> None
   /\ dict_get (monitoring_payload w sw port end_time) "error" = None)
  \/
  (dict_get (monitoring_payload w sw port end_time) "status" = Some (JStr "error")
   /\ dict_get (monitoring_payload w sw port end_time) "error" <> None
   /\ dict_get (monitoring_payload w sw port end_time) "data" = None).
Proof.
  unfold monitoring_payload.
  destruct (backend w MONITOR_URL _) as [response|e].
  - destruct (Response.status_code response =? 200).
    + destruct (Response.json response) as [data|e].
      * left. repeat split. discriminate.
      * right. repeat split. discriminate.
    + right. repeat split. discriminate.
  - right. repeat split. discriminate.
Qed.

(** X10.  Every answer that carries a record has status 200, and its
    [usage_data] always has a [status], "success" or "error": with
    "success" there is [data] and no [error], with "error" there is an
    [error] and no [data]. *)
Theorem usage_payload_invariant (w : world) (v : string) (s s' : state)
        (status : Z) (r : Usage.t) :
  post_get_usage_data w v s = (Reply status r, s') ->
  status = 200 /\
  ((dict_get (Usage.usage_data r) "status" = Some (JStr "success")
    /\ dict_get (Usage.usage_data r) "data" <> None
    /\ dict_get (Usage.usage_data r) "error" = None)
   \/
   (dict_get (Usage.usage_data r) "status" = Some (JStr "error")
    /\ dict_get (Usage.usage_data r) "error" <> None
    /\ dict_get (Usage.usage_data r) "data" = None)).
Proof.
  rewrite post_get_usage_data_run. intros H.
  destruct (validate_kennitala v) as [k|[msg|c d|msg]]; try discriminate.
  destruct (directory w k) as [l|e]; [|discriminate].
  destruct (Lookup.success l); [|discriminate].
  injection H as <- <- _. split; [reflexivity|].
  apply monitoring_payload_status.
Qed.

Lemma usage_payload_invariant_witness :
  post_get_usage_data world_503 "010190-1234" initial
  = (Reply 200
       {| Usage.kennitala := "0101901234";
          Usage.switch_number := "SW001";
          Usage.port_number := "P001";
          Usage.usage_data := monitoring_payload world_503 "SW001" "P001" (sample_clock 0);
          Usage.timestamp := sample_clock 1 |},
     {| ticks := 2;
        sent := [(MONITOR_URL,
                  metrics_params world_503 "SW001" "P001" (sample_clock 0))] |})
  /\
  ((dict_get (monitoring_payload world_503 "SW001" "P001" (sample_clock 0)) "status"
      = Some (JStr "success")
    /\ dict_get (monitoring_payload world_503 "SW001" "P001" (sample_clock 0)) "data"
         <> None
    /\ dict_get (monitoring_payload world_503 "SW001" "P001" (sample_clock 0)) "error"
         = None)
   \/
   (dict_get (monitoring_payload world_503 "SW001" "P001" (sample_clock 0)) "status"
      = Some (JStr "error")
    /\ dict_get (monitoring_payload world_503 "SW001" "P001" (sample_clock 0)) "error"
         <> None
    /\ dict_get (monitoring_payload world_503 "SW001" "P001" (sample_clock 0)) "data"
         = None)).
Proof.
  split; [reflexivity|].
  exact (proj2 (usage_payload_invariant world_503 "010190-1234" initial _ _ _
                  eq_refl)).
Defined.

(** X11.  The endpoint answers 422 exactly when the validator rejects the
    identifier, and 200 exactly when the validator accepts it and the
    directory, asked for the dash-free identifier, answers with
    [success = true].  No exception leaves the handler other than as an
    [HTTPException]. *)
Theorem reply_status_table (w : world) (v : string) (s : state) :
  (status_of (fst (post_get_usage_data w v s)) = 422 <-> accepted v = false) /\
  (status_of (fst (post_get_usage_data w v s)) = 200 <->
   accepted v = true /\
   exists l, directory w (Str.replace Str.DASH "" v) = Return l
             /\ Lookup.success l = true) /\
  fst (post_get_usage_data w v s) <> ServerError.
Proof.
  rewrite post_get_usage_data_run. fold (normalized v).
  destruct (accepted v) eqn:Ha.
  - apply accepted_Return in Ha. rewrite Ha.
    destruct (directory w (normalized v)) as [l|e].
    + destruct (Lookup.success l) eqn:Hl; cbn [fst status_of].
      * repeat split; try discriminate; eauto.
      * repeat split; try discriminate.
        intros (_ & l' & [= <-] & Hl'). congruence.
    + cbn [fst status_of]. repeat split; try discriminate.
      intros (_ & l' & E & _). discriminate.
  - apply rejected_Raise in Ha as [msg Ha]. rewrite Ha. cbn [fst status_of].
    repeat split; try discriminate. intros [E _]. discriminate.
Qed.

(** X12.  When the directory lookup raises, the endpoint answers 500 with
    "Error processing request: " followed by the text of the exception;
    the clock is not read and no query goes out. *)
Theorem lookup_exception_reply (w : world) (v : string) (s : state) (e : exn) :
  accepted v = true ->
  directory w (Str.replace Str.DASH "" v) = Raise e ->
  post_get_usage_data w v s
  = (ErrorReply 500 ("Error processing request: " ++ str_exn w e), s).
Proof.
  intros Ha Hd. rewrite post_get_usage_data_run.
  apply accepted_Return in Ha. rewrite Ha. unfold normalized. rewrite Hd.
  reflexivity.
Qed.

Lemma lookup_exception_reply_witness :
  accepted "010190-1234" = true /\
  post_get_usage_data world_no_directory "010190-1234" initial
  = (ErrorReply 500 "Error processing request: directory unreachable", initial).
Proof.
  split; [reflexivity|].
  exact (lookup_exception_reply world_no_directory "010190-1234" initial
           (OtherException "directory unreachable") eq_refl eq_refl).
Defined.

(** X13.  A request leaves a trace only when it is answered 200: then the
    clock has been read twice and exactly one query has been added, to the
    range endpoint.  Any other answer leaves the state as it was: a
    rejected identifier and a failed lookup cost no query. *)
Theorem query_only_for_200 (w : world) (v : string) (s : state) :
  (status_of (fst (post_get_usage_data w v s)) = 200 /\
   ticks (snd (post_get_usage_data w v s)) = S (S (ticks s)) /\
   exists params,
     sent (snd (post_get_usage_data w v s))
       = (sent s ++ [(MONITOR_URL, params)])%list) \/
  (status_of (fst (post_get_usage_data w v s)) <> 200 /\
   snd (post_get_usage_data w v s) = s).
Proof.
  rewrite post_get_usage_data_run.
  destruct (validate_kennitala v) as [k|[msg|c d|msg]];
    try (right; split; [discriminate | reflexivity]).
  destruct (directory w k) as [l|e];
    [|right; split; [discriminate | reflexivity]].
  destruct (Lookup.success l);
    [|right; split; [discriminate | reflexivity]].
  left. cbn [fst snd status_of ticks sent]. repeat split. eauto.
Qed.

(** X14.  With the directory the repository has, the placeholder, the
    endpoint answers 200 with switch "SW001" and port "P001" for every
    identifier the validator accepts and 422 for every other string. *)
Theorem placeholder_replies (w : world) (v : string) (s : state) :
  (forall k, directory w k = get_switch_port_data_placeholder k) ->
  status_of (fst (post_get_usage_data w v s)) = (if accepted v then 200 else 422) /\
  (accepted v = true ->
   exists r s',
     post_get_usage_data w v s = (Reply 200 r, s') /\
     Usage.switch_number r = "SW001" /\ Usage.port_number r = "P001").
Proof.
  intros Hdir. rewrite post_get_usage_data_run.
  destruct (accepted v) eqn:Ha.
  - apply accepted_Return in Ha. rewrite Ha, Hdir.
    unfold get_switch_port_data_placeholder. cbn [Lookup.success].
    split; [reflexivity|]. intros _. eexists. eexists. repeat split.
  - apply rejected_Raise in Ha as [msg Ha]. rewrite Ha.
    split; [reflexivity | discriminate].
Qed.

Lemma placeholder_replies_witness :
  status_of (fst (post_get_usage_data world_503 "010190-1234" initial)) = 200 /\
  status_of (fst (post_get_usage_data world_503 "010190" initial)) = 422.
Proof.
  split.
  - exact (proj1 (placeholder_replies world_503 "010190-1234" initial
                    (fun k => eq_refl))).
  - exact (proj1 (placeholder_replies world_503 "010190" initial
                    (fun k => eq_refl))).
Defined.

(** ** The selector *)

Lemma append_inj_l (s t t' : string) : s ++ t = s ++ t' -> t = t'.
Proof. induction s as [|c s IH]; simpl; [auto | intros [= H]; auto]. Qed.

(** Up to its first double quote a string is read in one way only. *)
Lemma first_quote (a a' t t' : string) :
  no_quote a = true -> no_quote a' = true ->
  a ++ String Str.QUOTE t = a' ++ String Str.QUOTE t' ->
  a = a' /\ t = t'.
Proof.
  revert a'. induction a as [|c a IH]; intros [|c' a'] Ha Ha' E; simpl in *.
  - injection E as ->. auto.
  - injection E as <- _. apply andb_true_iff in Ha' as [Hc _].
    rewrite Ascii.eqb_refl in Hc. discriminate.
  - injection E as -> _. apply andb_true_iff in Ha as [Hc _].
    rewrite Ascii.eqb_refl in Hc. discriminate.
  - injection E as -> E. apply andb_true_iff in Ha as [_ Ha].
    apply andb_true_iff in Ha' as [_ Ha'].
    destruct (IH a' Ha Ha' E) as [-> ->]. auto.
Qed.

Lemma append_quote_inj (p p' : string) :
  p ++ String Str.QUOTE "" = p' ++ String Str.QUOTE "" -> p = p'.
Proof.
  revert p'. induction p as [|c p IH]; intros [|c' p'] E; simpl in *.
  - reflexivity.
  - injection E as _ E. destruct p'; discriminate.
  - injection E as _ E. destruct p; discriminate.
  - injection E as -> E. f_equal. auto.
Qed.

(** X15.  For switch identifiers without a double quote the selector
    tells the pair apart: two queries with the same selector are for the
    same switch and the same port. *)
Theorem selector_injective (sw port sw' port' : string) :
  no_quote sw = true -> no_quote sw' = true ->
  selector sw port = selector sw' port' ->
  sw = sw' /\ port = port'.
Proof.
  intros Hq Hq' E. unfold selector, Str.quoted in E.
  apply (append_inj_l "switch_number=") in E.
  injection E as E. rewrite !append_assoc in E. cbn [append] in E.
  apply first_quote in E as [-> E]; try assumption.
  split; [reflexivity|].
  injection E as E. now apply append_quote_inj.
Qed.

Lemma selector_injective_witness :
  no_quote "SW001" = true /\
  selector "SW001" "P001" = "switch_number=" ++ Str.quoted "SW001"
                              ++ ",port_number=" ++ Str.quoted "P001" /\
  "SW001" = "SW001" /\ "P001" = "P001".
Proof.
  split; [reflexivity|]. split; [reflexivity|].
  exact (selector_injective "SW001" "P001" "SW001" "P001" eq_refl eq_refl eq_refl).
Defined.

(** The selector does not escape: a double quote in the switch identifier
    can pass for the end of it, and two different pairs then give one
    selector. *)
Example selector_not_escaped :
  selector ("x" ++ Str.quoted ",port_number=" ++ "y") "z"
  = selector "x" ("y" ++ Str.quoted ",port_number=" ++ "z")
  /\ "x" ++ Str.quoted ",port_number=" ++ "y" <> "x".
Proof. split; [reflexivity | discriminate]. Qed.

(** ** The other endpoints *)

(** [GET /health] reads the clock once and issues no query. *)
Lemma health_check_run (w : world) (s : state) :
  health_check w s =
  (Return {| Health.status := "healthy"; Health.timestamp := clock w (ticks s) |},
   {| ticks := S (ticks s); sent := sent s |}).
Proof. reflexivity. Qed.

Lemma root_banner :
  dict_get root "message" = Some (JStr "Icelandic SSN Usage API") /\
  dict_get root "version" = Some (JStr "1.0.0").
Proof. split; reflexivity. Qed.
